(** * The chat route: turn submission (POST) and conversation deletion (DELETE)

    A shallow embedding of [src/app/(chat)/api/chat/route.ts].  The two
    handlers are written in a small free monad whose operations are the
    calls the route makes to its collaborators (session resolution, the
    chat/message store, the title helper, the generation engine, the data
    stream, the console).  A handler is run against an arbitrary
    environment that answers those calls; the run yields the handler's
    outcome together with the ordered trace of calls it made. *)

From Stdlib Require Import ZArith Lia.
From stdpp Require Import base option list strings pretty gmap.

Local Open Scope string_scope.
Local Open Scope list_scope.
Local Open Scope Z_scope.

(** ** Data model *)

(** Roles of the [Message] type of the engine's library. *)
Inductive Role := system | user | assistant | tool.

#[global] Instance Role_eq_dec : EqDecision Role.
Proof. solve_decision. Defined.

(** Structured content parts of a generated message. *)
Inductive Part :=
| TextPart (text : string)
| ToolCallPart (toolCallId toolName : string)
| ToolResultPart (toolCallId toolName result : string).

#[global] Instance Part_eq_dec : EqDecision Part.
Proof. solve_decision. Defined.

(** [content] is either a plain string or an array of parts. *)
Inductive Content :=
| Text (s : string)
| Parts (ps : list Part).

#[global] Instance Content_eq_dec : EqDecision Content.
Proof. solve_decision. Defined.

Record Message := {
  msg_id : string;
  msg_role : Role;
  msg_content : Content
}.

#[global] Instance Message_eq_dec : EqDecision Message.
Proof. solve_decision. Defined.

(** A message row as handed to [saveMessages]. *)
Record DbMessage := {
  db_id : string;
  db_chatId : string;
  db_role : Role;
  db_content : Content;
  db_createdAt : Z
}.

#[global] Instance DbMessage_eq_dec : EqDecision DbMessage.
Proof. solve_decision. Defined.

Record Chat := {
  chat_id : string;
  chat_userId : string;
  chat_title : string
}.

#[global] Instance Chat_eq_dec : EqDecision Chat.
Proof. solve_decision. Defined.

(** [session.user.id] is optional at every level. *)
Record User := { user_id : option string }.
Record Session := { session_user : option User }.

(** An entry of the [models] table. *)
Record Model := {
  model_id : string;
  model_label : string;
  model_apiIdentifier : string;
  model_description : string
}.

(** The body of a turn submission, as destructured from [request.json()]. *)
Record TurnRequest := {
  req_id : string;
  req_messages : list Message;
  req_modelId : string
}.

(** A conversation-deletion request: the query string of [request.url] as
    the ordered key/value pairs of its [searchParams]. *)
Record DeleteRequest := { searchParams : list (string * string) }.

(** [searchParams.get(name)]: the first value stored under [name], or null. *)
Fixpoint searchParams_get (name : string) (ps : list (string * string))
  : option string :=
  match ps with
  | [] => None
  | (k, v) :: rest => if String.eqb k name then Some v else searchParams_get name rest
  end.

Inductive Body :=
| BodyText (s : string)
| BodyDataStream.

Record Response := { body : Body; status : Z }.

Definition text_response (s : string) (st : Z) : Response :=
  {| body := BodyText s; status := st |}.

(** JavaScript truthiness of a [string | undefined]: the empty string and
    undefined are falsy. *)
Definition truthy (o : option string) : option string :=
  match o with
  | Some s => if String.eqb s "" then None else Some s
  | None => None
  end.

(** ** Tool catalog *)

Definition maxDuration : Z := 60.

Inductive AllowedTools := getWalletAddress | createEvmWallet.

#[global] Instance AllowedTools_eq_dec : EqDecision AllowedTools.
Proof. solve_decision. Defined.

Definition tradingTools : list AllowedTools := [getWalletAddress; createEvmWallet].

Definition allTools : list AllowedTools := tradingTools ++ [].

Record ToolResult := { content : string }.

(** Both tools take the empty object as parameters. *)
Record ToolDescriptor := {
  description : string;
  execute : unit -> ToolResult
}.

Definition tools (t : AllowedTools) : ToolDescriptor :=
  match t with
  | getWalletAddress =>
      {| description := "Get the current wallet for the trader";
         execute := fun _ =>
           {| content := "No wallet address found, you should create a wallet first." |} |}
  | createEvmWallet =>
      {| description := "Create a EVM wallet for trading";
         execute := fun _ =>
           {| content := "Yes, I created an EVM wallet for you, it is 0x1234567890" |} |}
  end.

Definition toolName (t : AllowedTools) : string :=
  match t with
  | getWalletAddress => "getWalletAddress"
  | createEvmWallet => "createEvmWallet"
  end.

(** The [onFinish] callback is a closure over [session] and [id]; it is
    represented by the values it captures, its code is [onFinish] below. *)
Record OnFinishClosure := {
  captured_session : Session;
  captured_id : string
}.

Record Telemetry := { isEnabled : bool; functionId : string }.

(** The options object passed to [streamText]. *)
Record StreamTextConfig := {
  cfg_model : string;
  cfg_system : string;
  cfg_messages : list Message;
  cfg_maxSteps : nat;
  cfg_activeTools : list AllowedTools;
  cfg_tools : AllowedTools -> ToolDescriptor;
  cfg_onFinish : OnFinishClosure;
  cfg_telemetry : Telemetry
}.

(** The handle [streamText] returns. *)
Record StreamTextResult := { result_handle : nat }.

(** The [response] field of the argument of [onFinish]. *)
Record EngineResponse := { response_messages : list Message }.

(** ** Collaborator calls *)

(** Awaited calls; each may reject. *)
Inductive Call :=
| auth
| getChatById (id : string)
| generateTitleFromUserMessage (message : Message)
| saveChat (id userId title : string)
| saveMessages (messages : list DbMessage)
| deleteChatById (id : string).

Definition Resp (c : Call) : Type :=
  match c with
  | auth => option Session
  | getChatById _ => option Chat
  | generateTitleFromUserMessage _ => string
  | saveChat _ _ _ => unit
  | saveMessages _ => unit
  | deleteChatById _ => unit
  end.

(** Synchronous effects. *)
Inductive Eff :=
| newDate
| generateUUID
| writeData (type content : string)
| streamText (cfg : StreamTextConfig)
| consoleLog (tag userMessageId : string) (result : StreamTextResult)
| consoleError (msg : string)
| mergeIntoDataStream (result : StreamTextResult).

Definition Res (a : Eff) : Type :=
  match a with
  | newDate => Z
  | generateUUID => string
  | streamText _ => StreamTextResult
  | _ => unit
  end.

Inductive Exn :=
| StoreError (msg : string)
| TypeError (msg : string).

Inductive Outcome (X : Type) :=
| Ok (x : X)
| Threw (e : Exn).
Arguments Ok {X} x.
Arguments Threw {X} e.

(** ** Programs *)

Inductive Prog (R : Type) : Type :=
| Ret (r : R)
| Throw (e : Exn)
| Await (c : Call) (k : Outcome (Resp c) -> Prog R)
| Do (a : Eff) (k : Res a -> Prog R).
Arguments Ret {R} r.
Arguments Throw {R} e.
Arguments Await {R} c k.
Arguments Do {R} a k.

Fixpoint bind {A B} (p : Prog A) (f : A -> Prog B) : Prog B :=
  match p with
  | Ret r => f r
  | Throw e => Throw e
  | Await c k => Await c (fun o => bind (k o) f)
  | Do a k => Do a (fun r => bind (k r) f)
  end.

#[global] Instance Prog_ret : MRet Prog := @Ret.
#[global] Instance Prog_bind : MBind Prog := fun A B f p => bind p f.

(** [await c]: a rejection is rethrown at the await. *)
Definition await (c : Call) : Prog (Resp c) :=
  Await c (fun o => match o with Ok x => Ret x | Threw e => Throw e end).

Definition perform (a : Eff) : Prog (Res a) := Do a Ret.

(** [try { p } catch (error) { h error }] *)
Fixpoint try_catch {R} (p : Prog R) (h : Exn -> Prog R) : Prog R :=
  match p with
  | Ret r => Ret r
  | Throw e => h e
  | Await c k => Await c (fun o => try_catch (k o) h)
  | Do a k => Do a (fun r => try_catch (k r) h)
  end.

(** [xs.map(f)] for a callback with effects: [f] is applied left to right. *)
Fixpoint mapM {A B} (f : A -> Prog B) (xs : list A) : Prog (list B) :=
  match xs with
  | [] => Ret []
  | x :: rest => y ← f x; ys ← mapM f rest; Ret (y :: ys)
  end.

(** ** Helpers of [lib/utils] *)

Definition is_user (m : Message) : bool :=
  match msg_role m with user => true | _ => false end.

(** Modelled from the spec: [getMostRecentUserMessage] is imported from
    [lib/utils], which is not among the sources.  The spec requires the
    history to contain at least one user-authored message and calls the
    selected one the triggering user message: the last message of the
    history whose role is [user], undefined when there is none. *)
Definition getMostRecentUserMessage (messages : list Message) : option Message :=
  last (List.filter is_user messages).

Definition part_result_id (p : Part) : option string :=
  match p with
  | ToolResultPart i _ _ => Some i
  | _ => None
  end.

Definition content_parts (c : Content) : list Part :=
  match c with
  | Text _ => []
  | Parts ps => ps
  end.

(** The identifiers of the tool calls for which a result is present. *)
Definition toolResultIds (messages : list Message) : list string :=
  omap part_result_id (concat (map (fun m => content_parts (msg_content m)) messages)).

Definition mem_string (i : string) (ids : list string) : bool :=
  existsb (String.eqb i) ids.

(** A part stays unless it is a tool call with no matching result. *)
Definition part_complete (ids : list string) (p : Part) : bool :=
  match p with
  | ToolCallPart i _ => mem_string i ids
  | _ => true
  end.

(** A message loses its unmatched tool-call fragments; a message made of
    nothing but such fragments is removed.  A message with no unmatched
    fragment is returned as it is. *)
Definition sanitize_message (ids : list string) (m : Message) : option Message :=
  match msg_content m with
  | Text _ => Some m
  | Parts ps =>
      if forallb (part_complete ids) ps then Some m
      else
        match List.filter (part_complete ids) ps with
        | [] => None
        | kept => Some {| msg_id := msg_id m; msg_role := msg_role m;
                          msg_content := Parts kept |}
        end
  end.

(** Modelled from the spec: [sanitizeResponseMessages] is imported from
    [lib/utils], which is not among the sources.  Following section 4.2, it
    removes every message or message fragment that represents a tool call
    never matched with a tool result, and keeps the order and every
    complete message. *)
Definition sanitizeResponseMessages (messages : list Message) : list Message :=
  omap (sanitize_message (toolResultIds messages)) messages.

(** ** The route handlers *)

(** [!session || !session.user || !session.user.id] is false exactly when
    this returns the session and its user id. *)
Definition session_user_id (session : option Session) : option (Session * string) :=
  match session with
  | None => None
  | Some s =>
      match session_user s with
      | None => None
      | Some u =>
          match truthy (user_id u) with
          | None => None
          | Some uid => Some (s, uid)
          end
      end
  end.

(** [createDataStreamResponse({ execute })]: the stream is opened, [execute]
    runs on it, and the streamed response is returned.  Every effect of
    [execute] is total in this model, so the catch the library puts
    around [execute] has nothing to catch here. *)
Definition createDataStreamResponse (execute : Prog unit) : Prog Response :=
  execute;; mret {| body := BodyDataStream; status := 200 |}.

(** The code of the [onFinish] callback of [POST]. *)
Definition onFinish (clo : OnFinishClosure) (response : EngineResponse) : Prog unit :=
  match truthy (session_user (captured_session clo) ≫= user_id) with
  | Some _ =>
      try_catch
        (let responseMessagesWithoutIncompleteToolCalls :=
           sanitizeResponseMessages (response_messages response) in
         rows ← mapM (fun message =>
                        createdAt ← perform newDate;
                        mret {| db_id := msg_id message;
                                db_chatId := captured_id clo;
                                db_role := msg_role message;
                                db_content := msg_content message;
                                db_createdAt := createdAt |})
                     responseMessagesWithoutIncompleteToolCalls;
         await (saveMessages rows))
        (fun error => perform (consoleError "Failed to save chat"))
  | None => mret tt
  end.

Section Route.

(** The [models] table and the system prompt are imported constants. *)
Variable models : list Model.
Variable systemPrompt : string.

Definition streamTextConfig (model : Model) (messages : list Message)
    (session : Session) (id : string) : StreamTextConfig :=
  {| cfg_model := model_apiIdentifier model;
     cfg_system := systemPrompt;
     cfg_messages := messages;
     cfg_maxSteps := 5;
     cfg_activeTools := allTools;
     cfg_tools := tools;
     cfg_onFinish := {| captured_session := session; captured_id := id |};
     cfg_telemetry := {| isEnabled := true; functionId := "stream-text" |} |}.

(** [request] is the body that [await request.json()] has produced:
    parsing comes before [auth()] and is outside this model, which starts
    at the session resolution.  [customModel(model.apiIdentifier)] is
    carried by its argument in [streamTextConfig]. *)
Definition POST (request : TurnRequest) : Prog Response :=
  let id := req_id request in
  let messages := req_messages request in
  let modelId := req_modelId request in
  session ← await auth;
  match session_user_id session with
  | None => mret (text_response "Unauthorized" 401)
  | Some (session, userId) =>
      match List.find (fun model => String.eqb (model_id model) modelId) models with
      | None => mret (text_response "Model not found" 404)
      | Some model =>
          match getMostRecentUserMessage messages with
          | None => mret (text_response "No user message found" 400)
          | Some userMessage =>
              chat ← await (getChatById id);
              match chat with
              | None =>
                  title ← await (generateTitleFromUserMessage userMessage);
                  await (saveChat id userId title)
              | Some _ => mret tt
              end;;
              createdAt ← perform newDate;
              await (saveMessages
                       [ {| db_id := msg_id userMessage;
                            db_chatId := id;
                            db_role := msg_role userMessage;
                            db_content := msg_content userMessage;
                            db_createdAt := createdAt |} ]);;
              userMessageId ← perform generateUUID;
              createDataStreamResponse
                (perform (writeData "user-message-id" userMessageId);;
                 result ← perform (streamText (streamTextConfig model messages session id));
                 perform (consoleLog "carmen:chat:api:chat:finish" userMessageId result);;
                 perform (mergeIntoDataStream result))
          end
      end
  end.

Definition DELETE (request : DeleteRequest) : Prog Response :=
  match truthy (searchParams_get "id" (searchParams request)) with
  | None => mret (text_response "Not Found" 404)
  | Some id =>
      session ← await auth;
      match session ≫= session_user with
      | None => mret (text_response "Unauthorized" 401)
      | Some sessionUser =>
          try_catch
            (chat ← await (getChatById id);
             match chat with
             | None => Throw (TypeError "Cannot read properties of undefined (reading 'userId')")
             | Some chat =>
                 if bool_decide (Some (chat_userId chat) <> user_id sessionUser)
                 then mret (text_response "Unauthorized" 401)
                 else await (deleteChatById id);;
                      mret (text_response "Chat deleted" 200)
             end)
            (fun error =>
               mret (text_response "An error occurred while processing your request" 500))
      end
  end.

End Route.

(** ** Running a handler *)

(** One entry of the trace: the call made and what it answered. *)
Inductive Event :=
| EvAwait (c : Call) (o : Outcome (Resp c))
| EvDo (a : Eff) (r : Res a).

(** An environment answers every call from its state. *)
Record Env (St : Type) := {
  on_call : forall c : Call, St -> Outcome (Resp c) * St;
  on_eff : forall a : Eff, St -> Res a * St
}.
Arguments on_call {St} e c s.
Arguments on_eff {St} e a s.

Record Run (R St : Type) := {
  outcome : Outcome R;
  trace : list Event;
  final : St
}.
Arguments outcome {R St} r.
Arguments trace {R St} r.
Arguments final {R St} r.

Fixpoint run {St R} (env : Env St) (p : Prog R) (s : St) : Run R St :=
  match p with
  | Ret r => {| outcome := Ok r; trace := []; final := s |}
  | Throw e => {| outcome := Threw e; trace := []; final := s |}
  | Await c k =>
      let '(o, s1) := on_call env c s in
      let r := run env (k o) s1 in
      {| outcome := outcome r; trace := EvAwait c o :: trace r; final := final r |}
  | Do a k =>
      let '(x, s1) := on_eff env a s in
      let r := run env (k x) s1 in
      {| outcome := outcome r; trace := EvDo a x :: trace r; final := final r |}
  end.

(** *** Classification of trace entries *)

(** A write to the store, whether or not it succeeded. *)
Definition is_store_write (e : Event) : bool :=
  match e with
  | EvAwait (saveChat _ _ _) _ => true
  | EvAwait (saveMessages _) _ => true
  | EvAwait (deleteChatById _) _ => true
  | _ => false
  end.

Definition is_delete (e : Event) : bool :=
  match e with
  | EvAwait (deleteChatById _) _ => true
  | _ => false
  end.

Definition is_auth (e : Event) : bool :=
  match e with
  | EvAwait auth _ => true
  | _ => false
  end.

Definition is_newDate (e : Event) : bool :=
  match e with
  | EvDo newDate _ => true
  | _ => false
  end.

(** The rows of a [saveMessages] call. *)
Definition saved_rows (e : Event) : option (list DbMessage) :=
  match e with
  | EvAwait (saveMessages rows) _ => Some rows
  | _ => None
  end.

(** The options of a [streamText] call. *)
Definition started_cfg (e : Event) : option StreamTextConfig :=
  match e with
  | EvDo (streamText cfg) _ => Some cfg
  | _ => None
  end.

(** The awaited call rejected. *)
Definition rejected (e : Event) : bool :=
  match e with
  | EvAwait _ (Threw _) => true
  | _ => false
  end.

(** Something written to the client's stream: the metadata event, or the
    relay of the engine's text and tool events. *)
Definition is_stream_write (e : Event) : bool :=
  match e with
  | EvDo (writeData _ _) _ => true
  | EvDo (mergeIntoDataStream _) _ => true
  | _ => false
  end.

(** The start of generation. *)
Definition is_generation (e : Event) : bool :=
  match e with
  | EvDo (streamText _) _ => true
  | _ => false
  end.

(** The chat record of [id] is in the store: the lookup found it, or
    [saveChat] for it returned. *)
Definition chat_ensured (id userId : string) (e : Event) : Prop :=
  match e with
  | EvAwait (getChatById id') (Ok x) => id' = id /\ x <> None
  | EvAwait (saveChat id' userId' _) (Ok _) => id' = id /\ userId' = userId
  | _ => False
  end.

(** [saveMessages] returned for exactly the message [m], filed under [id]. *)
Definition user_message_saved (id : string) (m : Message) (e : Event) : Prop :=
  match e with
  | EvAwait (saveMessages [row]) (Ok _) =>
      db_id row = msg_id m /\ db_chatId row = id /\
      db_role row = msg_role m /\ db_content row = msg_content m
  | _ => False
  end.

(** ** The generation engine *)

Inductive StreamEvent :=
| metadata (type content : string)
| text_delta (text : string)
| tool_call (toolCallId : string) (t : AllowedTools)
| tool_result (toolCallId : string) (t : AllowedTools) (r : ToolResult)
| finish (messages : list Message).

(** What the model decides at one step. *)
Inductive Decision :=
| EmitText (text : string)
| CallTool (t : AllowedTools)
| Complete.

Definition engine_id (n : nat) : string := "msg-" +:+ pretty n.
Definition call_id (n : nat) : string := "call-" +:+ pretty n.

Definition is_tool_call (e : StreamEvent) : bool :=
  match e with tool_call _ _ => true | _ => false end.

Definition is_finish (e : StreamEvent) : bool :=
  match e with finish _ => true | _ => false end.

(** Modelled from the spec: the engine is the [streamText] function of an
    external library.  Following section 4.3, it keeps a budget of
    model-decision steps; at each step the model emits text, calls one
    declared tool (which runs to completion and whose result is merged
    back before the next step), or signals completion.  [n] numbers the
    generated messages. *)
Fixpoint engine_steps (budget : nat) (cfg : StreamTextConfig)
    (model : list Message -> Decision) (history : list Message) (n : nat)
  : list StreamEvent * list Message :=
  match budget with
  | O => ([], [])
  | S budget' =>
      match model history with
      | Complete => ([], [])
      | EmitText s =>
          let m := {| msg_id := engine_id n; msg_role := assistant;
                      msg_content := Parts [TextPart s] |} in
          let '(evs, ms) := engine_steps budget' cfg model (history ++ [m]) (S n) in
          (text_delta s :: evs, m :: ms)
      | CallTool t =>
          let r := execute (cfg_tools cfg t) tt in
          let m1 := {| msg_id := engine_id n; msg_role := assistant;
                       msg_content := Parts [ToolCallPart (call_id n) (toolName t)] |} in
          let m2 := {| msg_id := engine_id (S n); msg_role := tool;
                       msg_content :=
                         Parts [ToolResultPart (call_id n) (toolName t) (content r)] |} in
          let '(evs, ms) :=
            engine_steps budget' cfg model (history ++ [m1; m2]) (S (S n)) in
          (tool_call (call_id n) t :: tool_result (call_id n) t r :: evs,
           m1 :: m2 :: ms)
      end
  end.

(** Modelled from the spec: one generation turn ends with a single
    [finish] event that carries the generated messages. *)
Definition engine_run (cfg : StreamTextConfig) (model : list Message -> Decision)
  : list StreamEvent * EngineResponse :=
  let '(evs, ms) := engine_steps (cfg_maxSteps cfg) cfg model (cfg_messages cfg) 0 in
  (evs ++ [finish ms], {| response_messages := ms |}).

(** A model that calls a tool at every step, whatever the history. *)
Definition insistent_model (history : list Message) : Decision :=
  CallTool createEvmWallet.

(** ** A reference environment *)

Record Store := {
  chats : gmap string Chat;
  messages : list DbMessage
}.

(** A generation that was started: its events, its response and the
    callback to run at its finish. *)
Record Generation := {
  gen_events : list StreamEvent;
  gen_response : EngineResponse;
  gen_onFinish : OnFinishClosure
}.

Record World := {
  w_session : option Session;
  w_store : Store;
  w_fails : Call -> bool;
  w_summarize : Message -> string;
  w_model : list Message -> Decision;
  w_clock : Z;
  w_uuids : nat;
  w_generations : list Generation;
  w_stream : list StreamEvent;
  w_console : list string
}.

Definition uuid_of (n : nat) : string := "uuid-" +:+ pretty n.

Definition with_store (w : World) (st : Store) : World :=
  {| w_session := w_session w; w_store := st; w_fails := w_fails w;
     w_summarize := w_summarize w; w_model := w_model w; w_clock := w_clock w;
     w_uuids := w_uuids w; w_generations := w_generations w;
     w_stream := w_stream w; w_console := w_console w |}.

Definition with_clock (w : World) (t : Z) : World :=
  {| w_session := w_session w; w_store := w_store w; w_fails := w_fails w;
     w_summarize := w_summarize w; w_model := w_model w; w_clock := t;
     w_uuids := w_uuids w; w_generations := w_generations w;
     w_stream := w_stream w; w_console := w_console w |}.

Definition with_uuids (w : World) (n : nat) : World :=
  {| w_session := w_session w; w_store := w_store w; w_fails := w_fails w;
     w_summarize := w_summarize w; w_model := w_model w; w_clock := w_clock w;
     w_uuids := n; w_generations := w_generations w;
     w_stream := w_stream w; w_console := w_console w |}.

Definition with_generations (w : World) (gs : list Generation) : World :=
  {| w_session := w_session w; w_store := w_store w; w_fails := w_fails w;
     w_summarize := w_summarize w; w_model := w_model w; w_clock := w_clock w;
     w_uuids := w_uuids w; w_generations := gs;
     w_stream := w_stream w; w_console := w_console w |}.

Definition with_stream (w : World) (evs : list StreamEvent) : World :=
  {| w_session := w_session w; w_store := w_store w; w_fails := w_fails w;
     w_summarize := w_summarize w; w_model := w_model w; w_clock := w_clock w;
     w_uuids := w_uuids w; w_generations := w_generations w;
     w_stream := evs; w_console := w_console w |}.

Definition with_console (w : World) (ls : list string) : World :=
  {| w_session := w_session w; w_store := w_store w; w_fails := w_fails w;
     w_summarize := w_summarize w; w_model := w_model w; w_clock := w_clock w;
     w_uuids := w_uuids w; w_generations := w_generations w;
     w_stream := w_stream w; w_console := ls |}.

(** Modelled from the spec: the store and the session resolver are
    external (section 6): [getChat] looks a chat up, [createChat] adds
    it, [appendMessages] appends, [deleteChat] removes the chat and its
    messages, and each call fails with a store-level error when the world
    says so. *)
Definition world_call (c : Call) (w : World) : Outcome (Resp c) * World :=
  if w_fails w c then (Threw (StoreError "store unavailable"), w)
  else
    match c as c0 return Outcome (Resp c0) * World with
    | auth => (Ok (w_session w), w)
    | getChatById id => (Ok (chats (w_store w) !! id), w)
    | generateTitleFromUserMessage m => (Ok (w_summarize w m), w)
    | saveChat id userId title =>
        (Ok tt,
         with_store w
           {| chats := <[id := {| chat_id := id; chat_userId := userId;
                                  chat_title := title |}]> (chats (w_store w));
              messages := messages (w_store w) |})
    | saveMessages ms =>
        (Ok tt,
         with_store w
           {| chats := chats (w_store w);
              messages := messages (w_store w) ++ ms |})
    | deleteChatById id =>
        (Ok tt,
         with_store w
           {| chats := delete id (chats (w_store w));
              messages :=
                List.filter (fun m => negb (String.eqb (db_chatId m) id))
                            (messages (w_store w)) |})
    end.

(** Modelled from the spec: the clock, the identifier generator, the
    console and the data stream.  [streamText] starts a generation with
    the world's model; [mergeIntoDataStream] relays its events to the
    client's stream. *)
Definition world_eff (a : Eff) (w : World) : Res a * World :=
  match a as a0 return Res a0 * World with
  | newDate => (w_clock w, with_clock w (w_clock w + 1))
  | generateUUID => (uuid_of (w_uuids w), with_uuids w (S (w_uuids w)))
  | writeData type content =>
      (tt, with_stream w (w_stream w ++ [metadata type content]))
  | streamText cfg =>
      let '(evs, response) := engine_run cfg (w_model w) in
      ({| result_handle := length (w_generations w) |},
       with_generations w
         (w_generations w ++
            [ {| gen_events := evs; gen_response := response;
                 gen_onFinish := cfg_onFinish cfg |} ]))
  | consoleLog tag _ _ => (tt, with_console w (w_console w ++ [tag]))
  | consoleError msg => (tt, with_console w (w_console w ++ [msg]))
  | mergeIntoDataStream result =>
      match w_generations w !! result_handle result with
      | Some g => (tt, with_stream w (w_stream w ++ gen_events g))
      | None => (tt, w)
      end
  end.

Definition world : Env World := {| on_call := world_call; on_eff := world_eff |}.

(** A whole turn in the reference environment: [POST] runs; when it
    started a generation, the engine reaches its finish event and calls
    [onFinish] with the response. *)
Definition turn (models : list Model) (systemPrompt : string)
    (request : TurnRequest) (w : World) : Run Response World * option (Run unit World) :=
  let r := run world (POST models systemPrompt request) w in
  (r,
   match outcome r, last (w_generations (final r)) with
   | Ok {| body := BodyDataStream |}, Some g =>
       Some (run world (onFinish (gen_onFinish g) (gen_response g)) (final r))
   | _, _ => None
   end).

(** ** The shape of a successful submission *)

(** The row [POST] saves for the triggering user message:
    [{ ...userMessage, createdAt: new Date(), chatId: id }]. *)
Definition user_row (userMessage : Message) (id : string) (createdAt : Z) : DbMessage :=
  {| db_id := msg_id userMessage; db_chatId := id; db_role := msg_role userMessage;
     db_content := msg_content userMessage; db_createdAt := createdAt |}.

(** The calls between the lookup of the chat and the save of the user
    message: none when the chat exists, the title and [saveChat]
    otherwise. *)
Definition ensure_events (id userId : string) (userMessage : Message)
    (chat : option Chat) (evs : list Event) : Prop :=
  match chat with
  | Some _ => evs = []
  | None =>
      exists title : string,
        evs = [EvAwait (generateTitleFromUserMessage userMessage) (Ok title);
               EvAwait (saveChat id userId title) (Ok tt)]
  end.

(** The calls of [POST] from the save of the user message on. *)
Definition streaming_events (cfg : StreamTextConfig) (userMessage : Message)
    (id : string) (createdAt : Z) (userMessageId : string)
    (result : StreamTextResult) : list Event :=
  [EvDo newDate createdAt;
   EvAwait (saveMessages [user_row userMessage id createdAt]) (Ok tt);
   EvDo generateUUID userMessageId;
   EvDo (writeData "user-message-id" userMessageId) tt;
   EvDo (streamText cfg) result;
   EvDo (consoleLog "carmen:chat:api:chat:finish" userMessageId result) tt;
   EvDo (mergeIntoDataStream result) tt].

(** Nothing is written to the stream and generation is not started. *)
Definition quiet (t : list Event) : Prop :=
  Forall (fun e => is_stream_write e = false /\ is_generation e = false) t.

(** The caller is not authenticated, the model selector is unknown, or the
    history has no user-authored message. *)
Definition precondition_fails (models : list Model) (request : TurnRequest)
    (session : option Session) : Prop :=
  session_user_id session = None \/
  Forall (fun model => model_id model <> req_modelId request) models \/
  Forall (fun m => msg_role m <> user) (req_messages request).

(** The reading of the metadata identifier as the identifier of the
    eventual assistant message: whenever a turn announces [u] on the
    stream, the assistant rows its write-back adds to the store carry
    [u]. *)
Definition metadata_id_names_assistant_message : Prop :=
  forall (models : list Model) (systemPrompt : string) (request : TurnRequest)
         (w : World) (r : Run Response World) (fin : Run unit World)
         (u : string) (row : DbMessage),
    turn models systemPrompt request w = (r, Some fin) ->
    In (metadata "user-message-id" u) (w_stream (final r)) ->
    In row (messages (w_store (final fin))) ->
    db_role row = assistant ->
    db_id row = u.

(** ** Sample data *)

Definition sample_model : Model :=
  {| model_id := "gpt-4o"; model_label := "GPT 4o";
     model_apiIdentifier := "gpt-4o"; model_description := "Multi-step reasoning" |}.

Definition sample_models : list Model := [sample_model].

Definition sample_user_message : Message :=
  {| msg_id := "u1"; msg_role := user; msg_content := Text "get my wallet" |}.

Definition sample_request : TurnRequest :=
  {| req_id := "chat-1"; req_messages := [sample_user_message];
     req_modelId := "gpt-4o" |}.

Definition alice : Session := {| session_user := Some {| user_id := Some "alice" |} |}.
Definition bob : Session := {| session_user := Some {| user_id := Some "bob" |} |}.

Definition alice_chat : Chat :=
  {| chat_id := "chat-1"; chat_userId := "alice"; chat_title := "Wallet" |}.

Definition alice_row : DbMessage :=
  {| db_id := "u1"; db_chatId := "chat-1"; db_role := user;
     db_content := Text "get my wallet"; db_createdAt := 900 |}.

(** The model of the sample worlds calls [getWalletAddress] on the first
    step and completes on the next. *)
Definition sample_decide (history : list Message) : Decision :=
  match history with
  | [_] => CallTool getWalletAddress
  | _ => Complete
  end.

Definition sample_world (session : option Session) (st : Store)
    (fails : Call -> bool) : World :=
  {| w_session := session; w_store := st; w_fails := fails;
     w_summarize := fun _ => "Wallet"; w_model := sample_decide;
     w_clock := 1000; w_uuids := 0; w_generations := [];
     w_stream := []; w_console := [] |}.

Definition empty_store : Store := {| chats := ∅; messages := [] |}.

Definition alice_store : Store :=
  {| chats := {[ "chat-1" := alice_chat ]}; messages := [alice_row] |}.

Definition never_fails (c : Call) : bool := false.

(** The store rejects every write of generated (non-user) messages. *)
Definition write_back_fails (c : Call) : bool :=
  match c with
  | saveMessages rows => existsb (fun r => negb (bool_decide (db_role r = user))) rows
  | _ => false
  end.

Definition delete_chat_1 : DeleteRequest := {| searchParams := [("id", "chat-1")] |}.
Definition delete_no_id : DeleteRequest := {| searchParams := [("page", "2")] |}.


(** ** Every way a handler can run *)

(** The error of a rejected call. *)
Definition thrown (e : Event) : option Exn :=
  match e with
  | EvAwait _ (Threw err) => Some err
  | _ => None
  end.

(** The arguments of a [saveChat] call. *)
Definition saved_chat (e : Event) : option (string * string * string) :=
  match e with
  | EvAwait (saveChat id userId title) _ => Some (id, userId, title)
  | _ => None
  end.

(** The argument of a [deleteChatById] call. *)
Definition deleted_id (e : Event) : option string :=
  match e with
  | EvAwait (deleteChatById id) _ => Some id
  | _ => None
  end.

(** The value a [new Date()] returned. *)
Definition date_of (e : Event) : option Z :=
  match e with
  | EvDo newDate t => Some t
  | _ => None
  end.

(** The message of a [console.error] call. *)
Definition logged_error (e : Event) : option string :=
  match e with
  | EvDo (consoleError msg) _ => Some msg
  | _ => None
  end.

Definition is_saveChat (e : Event) : bool :=
  match e with
  | EvAwait (saveChat _ _ _) _ => true
  | _ => false
  end.

Definition is_saveMessages (e : Event) : bool :=
  match e with
  | EvAwait (saveMessages _) _ => true
  | _ => false
  end.

Definition is_title (e : Event) : bool :=
  match e with
  | EvAwait (generateTitleFromUserMessage _) _ => true
  | _ => false
  end.

Definition is_lookup (e : Event) : bool :=
  match e with
  | EvAwait (getChatById _) _ => true
  | _ => false
  end.

Definition is_consoleError (e : Event) : bool :=
  match e with
  | EvDo (consoleError _) _ => true
  | _ => false
  end.

(** The row [onFinish] builds for one response message. *)
Definition response_row (id : string) (message : Message) (createdAt : Z) : DbMessage :=
  {| db_id := msg_id message; db_chatId := id; db_role := msg_role message;
     db_content := msg_content message; db_createdAt := createdAt |}.

(** The three preconditions of [POST] hold: the session has a user id,
    [models.find] returns [model], and [userMessage] is the most recent
    user message. *)
Definition accepted (models : list Model) (request : TurnRequest)
    (session : option Session) (sess : Session) (userId : string)
    (model : Model) (userMessage : Message) : Prop :=
  session_user_id session = Some (sess, userId) /\
  List.find (fun model => String.eqb (model_id model) (req_modelId request)) models
    = Some model /\
  getMostRecentUserMessage (req_messages request) = Some userMessage.

(** The outcome and the trace of [POST], path by path: [POST] has no
    [try], so a rejected await ends the run with that error. *)
Inductive POST_run (models : list Model) (systemPrompt : string)
    (request : TurnRequest) : Outcome Response -> list Event -> Prop :=
| P_auth_rejected (e : Exn) :
    POST_run models systemPrompt request (Threw e) [EvAwait auth (Threw e)]
| P_unauthorized (session : option Session) :
    session_user_id session = None ->
    POST_run models systemPrompt request
      (Ok (text_response "Unauthorized" 401)) [EvAwait auth (Ok session)]
| P_model_not_found (session : option Session) (sess : Session) (userId : string) :
    session_user_id session = Some (sess, userId) ->
    List.find (fun model => String.eqb (model_id model) (req_modelId request)) models
      = None ->
    POST_run models systemPrompt request
      (Ok (text_response "Model not found" 404)) [EvAwait auth (Ok session)]
| P_no_user_message (session : option Session) (sess : Session) (userId : string)
    (model : Model) :
    session_user_id session = Some (sess, userId) ->
    List.find (fun model => String.eqb (model_id model) (req_modelId request)) models
      = Some model ->
    getMostRecentUserMessage (req_messages request) = None ->
    POST_run models systemPrompt request
      (Ok (text_response "No user message found" 400)) [EvAwait auth (Ok session)]
| P_lookup_rejected (session : option Session) (sess : Session) (userId : string)
    (model : Model) (userMessage : Message) (e : Exn) :
    accepted models request session sess userId model userMessage ->
    POST_run models systemPrompt request (Threw e)
      [EvAwait auth (Ok session); EvAwait (getChatById (req_id request)) (Threw e)]
| P_title_rejected (session : option Session) (sess : Session) (userId : string)
    (model : Model) (userMessage : Message) (e : Exn) :
    accepted models request session sess userId model userMessage ->
    POST_run models systemPrompt request (Threw e)
      [EvAwait auth (Ok session); EvAwait (getChatById (req_id request)) (Ok None);
       EvAwait (generateTitleFromUserMessage userMessage) (Threw e)]
| P_saveChat_rejected (session : option Session) (sess : Session) (userId : string)
    (model : Model) (userMessage : Message) (title : string) (e : Exn) :
    accepted models request session sess userId model userMessage ->
    POST_run models systemPrompt request (Threw e)
      [EvAwait auth (Ok session); EvAwait (getChatById (req_id request)) (Ok None);
       EvAwait (generateTitleFromUserMessage userMessage) (Ok title);
       EvAwait (saveChat (req_id request) userId title) (Threw e)]
| P_saveMessages_rejected (session : option Session) (sess : Session) (userId : string)
    (model : Model) (userMessage : Message) (chat : option Chat)
    (ensure : list Event) (createdAt : Z) (e : Exn) :
    accepted models request session sess userId model userMessage ->
    ensure_events (req_id request) userId userMessage chat ensure ->
    POST_run models systemPrompt request (Threw e)
      (EvAwait auth (Ok session) ::
       EvAwait (getChatById (req_id request)) (Ok chat) ::
       ensure ++
       [EvDo newDate createdAt;
        EvAwait (saveMessages [user_row userMessage (req_id request) createdAt])
                (Threw e)])
| P_streamed (session : option Session) (sess : Session) (userId : string)
    (model : Model) (userMessage : Message) (chat : option Chat)
    (ensure : list Event) (createdAt : Z) (userMessageId : string)
    (result : StreamTextResult) :
    accepted models request session sess userId model userMessage ->
    ensure_events (req_id request) userId userMessage chat ensure ->
    POST_run models systemPrompt request
      (Ok {| body := BodyDataStream; status := 200 |})
      (EvAwait auth (Ok session) ::
       EvAwait (getChatById (req_id request)) (Ok chat) ::
       ensure ++
       streaming_events
         (streamTextConfig systemPrompt model (req_messages request) sess
                           (req_id request))
         userMessage (req_id request) createdAt userMessageId result).

Definition delete_error : Response :=
  text_response "An error occurred while processing your request" 500.

(** The outcome and the trace of [DELETE], path by path: whatever is
    thrown after the session is resolved is caught and answered 500. *)
Inductive DELETE_run (request : DeleteRequest)
  : Outcome Response -> list Event -> Prop :=
| D_no_id :
    truthy (searchParams_get "id" (searchParams request)) = None ->
    DELETE_run request (Ok (text_response "Not Found" 404)) []
| D_auth_rejected (id : string) (e : Exn) :
    truthy (searchParams_get "id" (searchParams request)) = Some id ->
    DELETE_run request (Threw e) [EvAwait auth (Threw e)]
| D_no_user (id : string) (session : option Session) :
    truthy (searchParams_get "id" (searchParams request)) = Some id ->
    session ≫= session_user = None ->
    DELETE_run request (Ok (text_response "Unauthorized" 401))
      [EvAwait auth (Ok session)]
| D_lookup_rejected (id : string) (session : option Session) (sessionUser : User)
    (e : Exn) :
    truthy (searchParams_get "id" (searchParams request)) = Some id ->
    session ≫= session_user = Some sessionUser ->
    DELETE_run request (Ok delete_error)
      [EvAwait auth (Ok session); EvAwait (getChatById id) (Threw e)]
| D_no_chat (id : string) (session : option Session) (sessionUser : User) :
    truthy (searchParams_get "id" (searchParams request)) = Some id ->
    session ≫= session_user = Some sessionUser ->
    DELETE_run request (Ok delete_error)
      [EvAwait auth (Ok session); EvAwait (getChatById id) (Ok None)]
| D_not_owner (id : string) (session : option Session) (sessionUser : User)
    (chat : Chat) :
    truthy (searchParams_get "id" (searchParams request)) = Some id ->
    session ≫= session_user = Some sessionUser ->
    Some (chat_userId chat) <> user_id sessionUser ->
    DELETE_run request (Ok (text_response "Unauthorized" 401))
      [EvAwait auth (Ok session); EvAwait (getChatById id) (Ok (Some chat))]
| D_delete_rejected (id : string) (session : option Session) (sessionUser : User)
    (chat : Chat) (e : Exn) :
    truthy (searchParams_get "id" (searchParams request)) = Some id ->
    session ≫= session_user = Some sessionUser ->
    Some (chat_userId chat) = user_id sessionUser ->
    DELETE_run request (Ok delete_error)
      [EvAwait auth (Ok session); EvAwait (getChatById id) (Ok (Some chat));
       EvAwait (deleteChatById id) (Threw e)]
| D_deleted (id : string) (session : option Session) (sessionUser : User)
    (chat : Chat) :
    truthy (searchParams_get "id" (searchParams request)) = Some id ->
    session ≫= session_user = Some sessionUser ->
    Some (chat_userId chat) = user_id sessionUser ->
    DELETE_run request (Ok (text_response "Chat deleted" 200))
      [EvAwait auth (Ok session); EvAwait (getChatById id) (Ok (Some chat));
       EvAwait (deleteChatById id) (Ok tt)].

(** [deleteChatById] was called and resolved. *)
Definition delete_resolved (e : Event) : bool :=
  match e with
  | EvAwait (deleteChatById _) (Ok _) => true
  | _ => false
  end.

(** What a resolved [getChatById] returned. *)
Definition lookup_result (e : Event) : option (option Chat) :=
  match e with
  | EvAwait (getChatById _) (Ok x) => Some x
  | _ => None
  end.

(** What a resolved [auth()] returned. *)
Definition resolved_session (e : Event) : option (option Session) :=
  match e with
  | EvAwait auth (Ok x) => Some x
  | _ => None
  end.

(** The session is null, has no user, or its user has no id or the
    empty id. *)
Definition lacks_user_id (session : option Session) : Prop :=
  session = None \/
  exists sess, session = Some sess /\
    (session_user sess = None \/
     exists u, session_user sess = Some u /\
               (user_id u = None \/ user_id u = Some "")).

(** How many entries of a trace are of a kind. *)
Definition count_calls (kind : Event -> bool) (t : list Event) : nat :=
  length (List.filter kind t).





(** More sample data. *)

(** A session whose user carries the empty id. *)
Definition blank : Session := {| session_user := Some {| user_id := Some "" |} |}.


(** A session whose user carries no id. *)
Definition nameless : Session := {| session_user := Some {| user_id := None |} |}.

Definition delete_empty_id : DeleteRequest := {| searchParams := [("id", "")] |}.

(** The store rejects [deleteChatById]. *)
Definition delete_fails (c : Call) : bool :=
  match c with
  | deleteChatById _ => true
  | _ => false
  end.

(** The store rejects every [saveMessages]. *)
Definition save_fails (c : Call) : bool :=
  match c with
  | saveMessages _ => true
  | _ => false
  end.

Definition sample_response : EngineResponse :=
  {| response_messages :=
       [ {| msg_id := "msg-0"; msg_role := assistant; msg_content := Text "Hello" |};
         {| msg_id := "msg-1"; msg_role := assistant;
            msg_content := Parts [TextPart "Bye"] |} ] |}.

(** * Properties *)

(** ** Proof support *)

Ltac unfold_prog :=
  unfold createDataStreamResponse, await, perform, mbind, Prog_bind, mret, Prog_ret in *.

Lemma searchParams_get_absent (name : string) (ps : list (string * string)) :
  (forall v, ~ In (name, v) ps) -> searchParams_get name ps = None.
Proof.
  induction ps as [|[k v] rest IH]; intros Habs; simpl; [reflexivity|].
  destruct (String.eqb_spec k name) as [->|Hne].
  - exfalso. apply (Habs v). left. reflexivity.
  - apply IH. intros v' Hin. apply (Habs v'). right. exact Hin.
Qed.

(** Splitting a list at an element of its tail. *)
Lemma cons_split {A} (a e : A) (l pre post : list A) :
  a :: l = pre ++ e :: post ->
  (pre = [] /\ e = a /\ post = l) \/
  (exists pre', pre = a :: pre' /\ l = pre' ++ e :: post).
Proof.
  destruct pre as [|b pre']; simpl; intros H; inversion H; subst.
  - left. auto.
  - right. exists pre'. auto.
Qed.

Lemma nil_split {A} (e : A) (pre post : list A) : [] = pre ++ e :: post -> False.
Proof. destruct pre; discriminate. Qed.

(** *** Running sequences and handlers *)

Section RunLemmas.
Context {St : Type} (env : Env St).

Lemma run_bind {A B} (p : Prog A) (f : A -> Prog B) (s : St) :
  run env (bind p f) s =
    match outcome (run env p s) with
    | Ok x =>
        let r2 := run env (f x) (final (run env p s)) in
        {| outcome := outcome r2;
           trace := trace (run env p s) ++ trace r2;
           final := final r2 |}
    | Threw e =>
        {| outcome := Threw e;
           trace := trace (run env p s);
           final := final (run env p s) |}
    end.
Proof.
  revert s. induction p as [r|e|c k IH|a k IH]; intros s; simpl.
  - destruct (run env (f r) s); reflexivity.
  - reflexivity.
  - destruct (on_call env c s) as [o s1]. rewrite IH.
    destruct (run env (k o) s1) as [[x|e'] tr fi]; reflexivity.
  - destruct (on_eff env a s) as [x s1]. rewrite IH.
    destruct (run env (k x) s1) as [[y|e'] tr fi]; reflexivity.
Qed.

Lemma run_try_catch {R} (p : Prog R) (h : Exn -> Prog R) (s : St) :
  run env (try_catch p h) s =
    match outcome (run env p s) with
    | Ok x => run env p s
    | Threw e =>
        let r2 := run env (h e) (final (run env p s)) in
        {| outcome := outcome r2;
           trace := trace (run env p s) ++ trace r2;
           final := final r2 |}
    end.
Proof.
  revert s. induction p as [r|e|c k IH|a k IH]; intros s; simpl.
  - reflexivity.
  - destruct (run env (h e) s); reflexivity.
  - destruct (on_call env c s) as [o s1]. rewrite IH.
    destruct (run env (k o) s1) as [[x|e'] tr fi]; reflexivity.
  - destruct (on_eff env a s) as [x s1]. rewrite IH.
    destruct (run env (k x) s1) as [[y|e'] tr fi]; reflexivity.
Qed.

End RunLemmas.

(** ** Conversation deletion *)

Section DeleteRun.
Context {St : Type} (env : Env St).

Lemma run_DELETE_no_id (request : DeleteRequest) (s : St) :
  truthy (searchParams_get "id" (searchParams request)) = None ->
  run env (DELETE request) s =
    {| outcome := Ok (text_response "Not Found" 404); trace := []; final := s |}.
Proof. intros H. unfold DELETE. rewrite H. reflexivity. Qed.

Lemma run_DELETE_lookup (request : DeleteRequest) (s s1 s2 : St) (id : string)
    (session : Session) (sessionUser : User) (o : Outcome (option Chat)) :
  truthy (searchParams_get "id" (searchParams request)) = Some id ->
  on_call env auth s = (Ok (Some session), s1) ->
  session_user session = Some sessionUser ->
  on_call env (getChatById id) s1 = (o, s2) ->
  (forall chat, o = Ok (Some chat) -> Some (chat_userId chat) <> user_id sessionUser) ->
  run env (DELETE request) s =
    {| outcome :=
         Ok (match o with
             | Ok (Some _) => text_response "Unauthorized" 401
             | _ => text_response "An error occurred while processing your request" 500
             end);
       trace := [EvAwait auth (Ok (Some session)); EvAwait (getChatById id) o];
       final := s2 |}.
Proof.
  intros Hid Hauth Huser Hget Hown. unfold DELETE. rewrite Hid.
  unfold_prog. simpl. rewrite Hauth. simpl. rewrite Huser. simpl.
  rewrite Hget. destruct o as [[chat|]|e]; simpl; try reflexivity.
  rewrite bool_decide_eq_true_2 by (apply Hown; reflexivity).
  reflexivity.
Qed.

End DeleteRun.

(** Reading the session and looking a chat up leave the reference store as
    it was. *)
Lemma world_call_read_store (c : Call) (w : World) :
  is_store_write (EvAwait c (world_call c w).1) = false ->
  w_store (world_call c w).2 = w_store w.
Proof.
  unfold world_call. destruct (w_fails w c); [reflexivity|].
  destruct c; simpl; intros H; first [reflexivity | discriminate].
Qed.

Lemma world_eff_store (a : Eff) (w : World) :
  w_store (world_eff a w).2 = w_store w.
Proof.
  destruct a; simpl; try reflexivity.
  - destruct (engine_run cfg (w_model w)); reflexivity.
  - destruct (w_generations w !! result_handle result); reflexivity.
Qed.

(** In the reference environment, a run that makes no store write leaves
    the chats and the messages as they were. *)
Lemma world_store_unchanged {R} (p : Prog R) (w : World) :
  Forall (fun e => is_store_write e = false) (trace (run world p w)) ->
  w_store (final (run world p w)) = w_store w.
Proof.
  revert w. induction p as [r|e|c k IH|a k IH]; intros w; simpl; try reflexivity.
  - pose proof (world_call_read_store c w) as Hread.
    destruct (world_call c w) as [o w1]. simpl in *.
    intros Hall. inversion Hall as [|? ? Hc Hrest]; subst.
    rewrite (IH o w1 Hrest). exact (Hread Hc).
  - pose proof (world_eff_store a w) as Heff.
    destruct (world_eff a w) as [x w1]. simpl in *.
    intros Hall. inversion Hall as [|? ? _ Hrest]; subst.
    rewrite (IH x w1 Hrest). exact Heff.
Qed.

(** C10: a deletion request whose query string has no [id] parameter is
    answered 404 Not Found and the session is never resolved: no call at
    all is made, so the answer is the same for an unauthenticated caller. *)
Theorem DELETE_missing_id_before_auth {St : Type} (env : Env St)
    (request : DeleteRequest) (s : St) :
  (forall v, ~ In ("id", v) (searchParams request)) ->
  let r := run env (DELETE request) s in
  outcome r = Ok (text_response "Not Found" 404) /\
  Forall (fun e => is_auth e = false) (trace r) /\
  trace r = [] /\ final r = s.
Proof.
  intros Habs r. subst r.
  rewrite run_DELETE_no_id
    by (rewrite (searchParams_get_absent _ _ Habs); reflexivity).
  simpl. repeat split; constructor.
Qed.

Lemma DELETE_missing_id_before_auth_witness :
  (forall v, ~ In ("id", v) (searchParams delete_no_id)) /\
  let r := run world (DELETE delete_no_id) (sample_world None alice_store never_fails) in
  outcome r = Ok (text_response "Not Found" 404) /\
  Forall (fun e => is_auth e = false) (trace r) /\
  trace r = [] /\ final r = sample_world None alice_store never_fails.
Proof.
  assert (H : forall v, ~ In ("id", v) (searchParams delete_no_id)).
  { intros v [Heq|[]]. discriminate. }
  split; [exact H|].
  exact (DELETE_missing_id_before_auth world delete_no_id
           (sample_world None alice_store never_fails) H).
Defined.

(** C6: when an authenticated caller who does not own the existing chat
    asks for its deletion, the answer is 401 Unauthorized and nothing is
    deleted: the only calls made are the session resolution and the
    lookup, and the state is the one the lookup left. *)
Theorem DELETE_not_owner_unauthorized {St : Type} (env : Env St)
    (request : DeleteRequest) (s s1 s2 : St) (id : string)
    (session : Session) (sessionUser : User) (chat : Chat) :
  truthy (searchParams_get "id" (searchParams request)) = Some id ->
  on_call env auth s = (Ok (Some session), s1) ->
  session_user session = Some sessionUser ->
  on_call env (getChatById id) s1 = (Ok (Some chat), s2) ->
  Some (chat_userId chat) <> user_id sessionUser ->
  let r := run env (DELETE request) s in
  outcome r = Ok (text_response "Unauthorized" 401) /\
  Forall (fun e => is_store_write e = false) (trace r) /\
  trace r = [EvAwait auth (Ok (Some session));
             EvAwait (getChatById id) (Ok (Some chat))] /\
  final r = s2.
Proof.
  intros Hid Hauth Huser Hget Hown r. subst r.
  rewrite (run_DELETE_lookup env request s s1 s2 id session sessionUser
             (Ok (Some chat)) Hid Hauth Huser Hget)
    by (intros c Hc; inversion Hc; subst; exact Hown).
  simpl. repeat split. repeat constructor.
Qed.

Lemma DELETE_not_owner_unauthorized_witness :
  let w := sample_world (Some bob) alice_store never_fails in
  let r := run world (DELETE delete_chat_1) w in
  outcome r = Ok (text_response "Unauthorized" 401) /\
  Forall (fun e => is_store_write e = false) (trace r) /\
  trace r = [EvAwait auth (Ok (Some bob));
             EvAwait (getChatById "chat-1") (Ok (Some alice_chat))] /\
  final r = w.
Proof.
  intros w.
  apply (DELETE_not_owner_unauthorized world delete_chat_1 w w w "chat-1" bob
           {| user_id := Some "bob" |} alice_chat).
  - reflexivity.
  - reflexivity.
  - reflexivity.
  - vm_compute. reflexivity.
  - discriminate.
Defined.

(** In the reference store the chat and its messages are still there
    after a deletion request by somebody else. *)
Example DELETE_not_owner_store_intact :
  let w := sample_world (Some bob) alice_store never_fails in
  let r := run world (DELETE delete_chat_1) w in
  chats (w_store (final r)) !! "chat-1" = Some alice_chat /\
  messages (w_store (final r)) = [alice_row].
Proof. vm_compute. split; reflexivity. Qed.

(** The same for every reference world: the store after the refused
    deletion is the store before it. *)
Lemma DELETE_not_owner_keeps_store (request : DeleteRequest) (w : World)
    (id : string) (session : Session) (sessionUser : User) (chat : Chat) :
  truthy (searchParams_get "id" (searchParams request)) = Some id ->
  w_fails w auth = false ->
  w_fails w (getChatById id) = false ->
  w_session w = Some session ->
  session_user session = Some sessionUser ->
  chats (w_store w) !! id = Some chat ->
  Some (chat_userId chat) <> user_id sessionUser ->
  outcome (run world (DELETE request) w) = Ok (text_response "Unauthorized" 401) /\
  w_store (final (run world (DELETE request) w)) = w_store w.
Proof.
  intros Hid Hfa Hfg Hsess Huser Hchat Hown.
  assert (Hauth : on_call world auth w = (Ok (Some session), w)).
  { simpl. unfold world_call. rewrite Hfa, Hsess. reflexivity. }
  assert (Hget : on_call world (getChatById id) w = (Ok (Some chat), w)).
  { simpl. unfold world_call. rewrite Hfg, Hchat. reflexivity. }
  rewrite (run_DELETE_lookup world request w w w id session sessionUser
             (Ok (Some chat)) Hid Hauth Huser Hget)
    by (intros c Hc; inversion Hc; subst; exact Hown).
  split; reflexivity.
Qed.

(** The owner's request does delete the chat and its messages. *)
Example DELETE_owner_deletes :
  let w := sample_world (Some alice) alice_store never_fails in
  let r := run world (DELETE delete_chat_1) w in
  outcome r = Ok (text_response "Chat deleted" 200) /\
  chats (w_store (final r)) !! "chat-1" = None /\
  messages (w_store (final r)) = [].
Proof. vm_compute. repeat split; reflexivity. Qed.

(** C7: when an authenticated caller asks for the deletion of a chat that
    does not exist, reading [userId] of the missing chat throws inside the
    [try], and the answer is the 500 error response; nothing is deleted. *)
Theorem DELETE_missing_chat_fails {St : Type} (env : Env St)
    (request : DeleteRequest) (s s1 s2 : St) (id : string)
    (session : Session) (sessionUser : User) :
  truthy (searchParams_get "id" (searchParams request)) = Some id ->
  on_call env auth s = (Ok (Some session), s1) ->
  session_user session = Some sessionUser ->
  on_call env (getChatById id) s1 = (Ok None, s2) ->
  let r := run env (DELETE request) s in
  outcome r =
    Ok (text_response "An error occurred while processing your request" 500) /\
  Forall (fun e => is_delete e = false) (trace r) /\
  trace r = [EvAwait auth (Ok (Some session)); EvAwait (getChatById id) (Ok None)] /\
  final r = s2.
Proof.
  intros Hid Hauth Huser Hget r. subst r.
  rewrite (run_DELETE_lookup env request s s1 s2 id session sessionUser
             (Ok None) Hid Hauth Huser Hget)
    by (intros c Hc; discriminate).
  simpl. repeat split. repeat constructor.
Qed.

Lemma DELETE_missing_chat_fails_witness :
  let w := sample_world (Some alice) empty_store never_fails in
  let r := run world (DELETE delete_chat_1) w in
  outcome r =
    Ok (text_response "An error occurred while processing your request" 500) /\
  Forall (fun e => is_delete e = false) (trace r) /\
  trace r = [EvAwait auth (Ok (Some alice)); EvAwait (getChatById "chat-1") (Ok None)] /\
  final r = w.
Proof.
  intros w.
  apply (DELETE_missing_chat_fails world delete_chat_1 w w w "chat-1" alice
           {| user_id := Some "alice" |}); reflexivity.
Defined.

(** ** Turn submission *)

Ltac run_step :=
  match goal with
  | |- context [on_call ?env ?c ?s] =>
      destruct (on_call env c s) as [[?|?] ?]; simpl
  | |- context [on_eff ?env ?a ?s] =>
      destruct (on_eff env a s) as [? ?]; simpl
  end.

Ltac destruct_units :=
  repeat match goal with u : unit |- _ => destruct u end.

Ltac quiet_case :=
  left; split;
  [ repeat constructor
  | intros ? Hresp; inversion Hresp; subst; discriminate ].

Section PostRun.
Context {St : Type} (env : Env St).
Variable models : list Model.
Variable systemPrompt : string.

Lemma run_POST_unauthorized (request : TurnRequest) (s s1 : St)
    (session : option Session) :
  on_call env auth s = (Ok session, s1) ->
  session_user_id session = None ->
  run env (POST models systemPrompt request) s =
    {| outcome := Ok (text_response "Unauthorized" 401);
       trace := [EvAwait auth (Ok session)]; final := s1 |}.
Proof.
  intros Hauth Hnone. unfold POST. unfold_prog. simpl.
  rewrite Hauth. simpl. rewrite Hnone. reflexivity.
Qed.

Lemma run_POST_model_not_found (request : TurnRequest) (s s1 : St)
    (session : option Session) (sess : Session) (userId : string) :
  on_call env auth s = (Ok session, s1) ->
  session_user_id session = Some (sess, userId) ->
  List.find (fun model => String.eqb (model_id model) (req_modelId request)) models
    = None ->
  run env (POST models systemPrompt request) s =
    {| outcome := Ok (text_response "Model not found" 404);
       trace := [EvAwait auth (Ok session)]; final := s1 |}.
Proof.
  intros Hauth Hsess Hfind. unfold POST. unfold_prog. simpl.
  rewrite Hauth. simpl. rewrite Hsess, Hfind. reflexivity.
Qed.

Lemma run_POST_no_user_message (request : TurnRequest) (s s1 : St)
    (session : option Session) (sess : Session) (userId : string) (model : Model) :
  on_call env auth s = (Ok session, s1) ->
  session_user_id session = Some (sess, userId) ->
  List.find (fun model => String.eqb (model_id model) (req_modelId request)) models
    = Some model ->
  getMostRecentUserMessage (req_messages request) = None ->
  run env (POST models systemPrompt request) s =
    {| outcome := Ok (text_response "No user message found" 400);
       trace := [EvAwait auth (Ok session)]; final := s1 |}.
Proof.
  intros Hauth Hsess Hfind Hnone. unfold POST. unfold_prog. simpl.
  rewrite Hauth. simpl. rewrite Hsess, Hfind, Hnone. reflexivity.
Qed.

(** Every run of [POST] either stays quiet and answers no stream, or
    has the full shape of a successful submission. *)
Lemma run_POST_shape (request : TurnRequest) (s : St) :
  let r := run env (POST models systemPrompt request) s in
  (quiet (trace r) /\
   forall resp, outcome r = Ok resp -> body resp <> BodyDataStream)
  \/
  (exists session sess userId model userMessage chat ensure createdAt
          userMessageId result,
     session_user_id session = Some (sess, userId) /\
     List.find (fun model => String.eqb (model_id model) (req_modelId request)) models
       = Some model /\
     getMostRecentUserMessage (req_messages request) = Some userMessage /\
     ensure_events (req_id request) userId userMessage chat ensure /\
     trace r =
       EvAwait auth (Ok session) ::
       EvAwait (getChatById (req_id request)) (Ok chat) ::
       ensure ++
       streaming_events
         (streamTextConfig systemPrompt model (req_messages request) sess
                           (req_id request))
         userMessage (req_id request) createdAt userMessageId result /\
     outcome r = Ok {| body := BodyDataStream; status := 200 |}).
Proof.
  unfold POST. unfold_prog. simpl.
  destruct (on_call env auth s) as [[session|?] ?]; simpl; [|quiet_case].
  destruct (session_user_id _) as [[sess userId]|] eqn:Hsess; simpl;
    [|quiet_case].
  destruct (find _ models) as [model|] eqn:Hfind; simpl; [|quiet_case].
  destruct (getMostRecentUserMessage _) as [userMessage|] eqn:Hum; simpl;
    [|quiet_case].
  destruct (on_call env (getChatById _) _) as [[[chat|]|?] ?]; simpl;
    [| |quiet_case].
  - run_step. run_step; [|quiet_case].
    repeat run_step. cbn in *. destruct_units.
    right. exists session, sess, userId, model, userMessage, (Some chat), [].
    do 3 eexists. repeat split; eauto.
  - destruct (on_call env (generateTitleFromUserMessage _) _)
      as [[title|?] ?]; simpl; [|quiet_case].
    run_step; [|quiet_case].
    run_step. run_step; [|quiet_case].
    repeat run_step. cbn in *. destruct_units.
    right. exists session, sess, userId, model, userMessage, None.
    exists [EvAwait (generateTitleFromUserMessage userMessage) (Ok title);
            EvAwait (saveChat (req_id request) userId title) (Ok tt)].
    do 3 eexists. repeat split; eauto.
    exists title. reflexivity.
Qed.

End PostRun.

Lemma find_unknown_model (models : list Model) (modelId : string) :
  Forall (fun model => model_id model <> modelId) models ->
  List.find (fun model => String.eqb (model_id model) modelId) models = None.
Proof.
  induction 1 as [|model rest Hne _ IH]; simpl; [reflexivity|].
  destruct (String.eqb_spec (model_id model) modelId); [contradiction|exact IH].
Qed.

Lemma filter_is_user_nil (messages : list Message) :
  Forall (fun m => msg_role m <> user) messages ->
  List.filter is_user messages = [].
Proof.
  induction 1 as [|m rest Hne _ IH]; simpl; [reflexivity|].
  unfold is_user at 1. destruct (msg_role m); try exact IH. contradiction.
Qed.

Lemma getMostRecentUserMessage_none (messages : list Message) :
  Forall (fun m => msg_role m <> user) messages ->
  getMostRecentUserMessage messages = None.
Proof.
  intros H. unfold getMostRecentUserMessage.
  rewrite filter_is_user_nil by exact H. reflexivity.
Qed.

(** C4: the preconditions of a turn submission are checked, in this order,
    right after the session is resolved: an unauthenticated caller gets
    401 Unauthorized; an authenticated caller with an unknown model
    selector gets 404 Model not found; with a known model and a history
    without user-authored message, 400 No user message found.  Whenever
    one of the three fails, the answer is a plain response and resolving
    the session is the only call made: no chat is created, no message is
    saved, nothing is streamed. *)
Theorem POST_preconditions {St : Type} (env : Env St) (models : list Model)
    (systemPrompt : string) (request : TurnRequest) (s s1 : St)
    (session : option Session) :
  on_call env auth s = (Ok session, s1) ->
  let r := run env (POST models systemPrompt request) s in
  (session_user_id session = None ->
   outcome r = Ok (text_response "Unauthorized" 401)) /\
  (session_user_id session <> None ->
   Forall (fun model => model_id model <> req_modelId request) models ->
   outcome r = Ok (text_response "Model not found" 404)) /\
  (session_user_id session <> None ->
   (exists model, In model models /\ model_id model = req_modelId request) ->
   Forall (fun m => msg_role m <> user) (req_messages request) ->
   outcome r = Ok (text_response "No user message found" 400)) /\
  (precondition_fails models request session ->
   (exists text code, outcome r = Ok (text_response text code) /\
                      (code = 401 \/ code = 404 \/ code = 400)) /\
   trace r = [EvAwait auth (Ok session)] /\
   Forall (fun e => is_store_write e = false) (trace r) /\
   quiet (trace r) /\
   final r = s1).
Proof.
  intros Hauth r. subst r.
  destruct (session_user_id session) as [[sess userId]|] eqn:Hsess.
  2:{ rewrite (run_POST_unauthorized env models systemPrompt request s s1 session
                 Hauth Hsess). simpl.
      repeat split; try congruence; try (repeat constructor).
      exists "Unauthorized", 401. auto. }
  destruct (List.find (fun model => String.eqb (model_id model) (req_modelId request))
              models) as [model|] eqn:Hfind.
  2:{ rewrite (run_POST_model_not_found env models systemPrompt request s s1 session
                 sess userId Hauth Hsess Hfind). simpl.
      repeat split; try congruence; try (repeat constructor).
      - intros _ [model [Hin Hid]] _. exfalso.
        apply (find_none _ _ Hfind) in Hin.
        apply String.eqb_neq in Hin. contradiction.
      - exists "Model not found", 404. auto. }
  assert (Hknown : ~ Forall (fun model => model_id model <> req_modelId request) models).
  { intros Hall. rewrite (find_unknown_model _ _ Hall) in Hfind. discriminate. }
  destruct (getMostRecentUserMessage (req_messages request)) as [userMessage|] eqn:Hum.
  2:{ rewrite (run_POST_no_user_message env models systemPrompt request s s1 session
                 sess userId model Hauth Hsess Hfind Hum). simpl.
      repeat split; try congruence; try contradiction; try (repeat constructor).
      exists "No user message found", 400. auto. }
  assert (Huser : ~ Forall (fun m => msg_role m <> user) (req_messages request)).
  { intros Hall. rewrite (getMostRecentUserMessage_none _ Hall) in Hum. discriminate. }
  repeat split; try congruence; try contradiction;
    destruct H as [H|[H|H]]; try congruence; contradiction.
Qed.

Lemma POST_preconditions_witness :
  let anonymous := sample_world None empty_store never_fails in
  let signed_in := sample_world (Some alice) empty_store never_fails in
  let no_user := {| req_id := "chat-1"; req_messages := []; req_modelId := "gpt-4o" |} in
  (outcome (run world (POST sample_models "prompt" sample_request) anonymous)
     = Ok (text_response "Unauthorized" 401) /\
   trace (run world (POST sample_models "prompt" sample_request) anonymous)
     = [EvAwait auth (Ok None)]) /\
  outcome (run world (POST [] "prompt" sample_request) signed_in)
    = Ok (text_response "Model not found" 404) /\
  outcome (run world (POST sample_models "prompt" no_user) signed_in)
    = Ok (text_response "No user message found" 400).
Proof.
  intros anonymous signed_in no_user.
  pose proof (POST_preconditions world sample_models "prompt" sample_request
                anonymous anonymous None eq_refl) as (H401 & _ & _ & Hfail).
  pose proof (POST_preconditions world [] "prompt" sample_request
                signed_in signed_in (Some alice) eq_refl) as (_ & H404 & _ & _).
  pose proof (POST_preconditions world sample_models "prompt" no_user
                signed_in signed_in (Some alice) eq_refl) as (_ & _ & H400 & _).
  split; [split|split].
  - exact (H401 eq_refl).
  - exact (proj1 (proj2 (Hfail (or_introl eq_refl)))).
  - apply H404; [discriminate|constructor].
  - apply H400; [discriminate| |constructor].
    exists sample_model. split; [left|]; reflexivity.
Defined.

(** The two other failures, evaluated. *)
Example POST_unknown_model :
  let w := sample_world (Some alice) empty_store never_fails in
  let r := run world (POST [] "prompt" sample_request) w in
  outcome r = Ok (text_response "Model not found" 404) /\ w_store (final r) = empty_store.
Proof. split; reflexivity. Qed.

Example POST_no_user_message :
  let w := sample_world (Some alice) empty_store never_fails in
  let request := {| req_id := "chat-1"; req_messages := []; req_modelId := "gpt-4o" |} in
  let r := run world (POST sample_models "prompt" request) w in
  outcome r = Ok (text_response "No user message found" 400) /\
  w_store (final r) = empty_store /\ w_stream (final r) = [].
Proof. repeat split; reflexivity. Qed.

Ltac split_trace H :=
  repeat match type of H with
  | _ :: _ = _ ++ _ :: _ =>
      apply cons_split in H;
      destruct H as [(-> & -> & ->) | (? & -> & H)]
  | [] = _ ++ _ :: _ => destruct (nil_split _ _ _ H)
  end.

Lemma quiet_no_output (t pre post : list Event) (e : Event) :
  quiet t -> t = pre ++ e :: post ->
  is_stream_write e = true \/ is_generation e = true -> False.
Proof.
  intros Hq -> He. unfold quiet in Hq.
  apply Forall_app in Hq as [_ Hq]. inversion Hq as [|? ? [Hw Hg] _]; subst.
  destruct He; congruence.
Qed.

(** C1: in every run of a turn submission, whatever is written to the
    client's stream and the start of generation itself come after the
    chat record is in the store (found by the lookup, or created by
    [saveChat] for the caller) and after [saveMessages] has returned for
    the triggering user message, in this order. *)
Theorem POST_persists_before_streaming {St : Type} (env : Env St)
    (models : list Model) (systemPrompt : string) (request : TurnRequest)
    (s : St) (pre post : list Event) (e : Event) :
  trace (run env (POST models systemPrompt request) s) = pre ++ e :: post ->
  is_stream_write e = true \/ is_generation e = true ->
  exists session sess userId userMessage e1 e2 pre1 pre2 pre3,
    session_user_id session = Some (sess, userId) /\
    getMostRecentUserMessage (req_messages request) = Some userMessage /\
    pre = EvAwait auth (Ok session) :: pre1 ++ e1 :: pre2 ++ e2 :: pre3 /\
    chat_ensured (req_id request) userId e1 /\
    user_message_saved (req_id request) userMessage e2.
Proof.
  intros Htrace He.
  destruct (run_POST_shape env models systemPrompt request s)
    as [[Hq _] | (session & sess & userId & model & userMessage & chat & ensure &
                  createdAt & userMessageId & result &
                  Hsess & _ & Hum & Hens & Hshape & _)].
  { exfalso. exact (quiet_no_output _ _ _ _ Hq Htrace He). }
  rewrite Hshape in Htrace. clear Hshape.
  exists session, sess, userId, userMessage.
  destruct chat as [chat|]; simpl in Hens.
  - subst ensure. unfold streaming_events in Htrace. simpl in Htrace.
    split_trace Htrace; simpl in He; destruct He as [He|He]; try discriminate He.
    all: exists (EvAwait (getChatById (req_id request)) (Ok (Some chat))),
           (EvAwait (saveMessages [user_row userMessage (req_id request) createdAt])
                    (Ok tt)),
           [], [EvDo newDate createdAt].
    all: eexists; repeat split; try reflexivity; simpl; auto.
  - destruct Hens as [title ->]. unfold streaming_events in Htrace. simpl in Htrace.
    split_trace Htrace; simpl in He; destruct He as [He|He]; try discriminate He.
    all: exists (EvAwait (saveChat (req_id request) userId title) (Ok tt)),
           (EvAwait (saveMessages [user_row userMessage (req_id request) createdAt])
                    (Ok tt)),
           [EvAwait (getChatById (req_id request)) (Ok None);
            EvAwait (generateTitleFromUserMessage userMessage) (Ok title)],
           [EvDo newDate createdAt].
    all: eexists; repeat split; try reflexivity; simpl; auto.
Qed.

Lemma POST_persists_before_streaming_witness :
  let w := sample_world (Some alice) empty_store never_fails in
  exists pre post u,
    trace (run world (POST sample_models "prompt" sample_request) w)
      = pre ++ EvDo (writeData "user-message-id" u) tt :: post /\
    exists session sess userId userMessage e1 e2 pre1 pre2 pre3,
      session_user_id session = Some (sess, userId) /\
      getMostRecentUserMessage (req_messages sample_request) = Some userMessage /\
      pre = EvAwait auth (Ok session) :: pre1 ++ e1 :: pre2 ++ e2 :: pre3 /\
      chat_ensured (req_id sample_request) userId e1 /\
      user_message_saved (req_id sample_request) userMessage e2.
Proof.
  intros w.
  set (pre := [EvAwait auth (Ok (Some alice));
               EvAwait (getChatById "chat-1") (Ok None);
               EvAwait (generateTitleFromUserMessage sample_user_message) (Ok "Wallet");
               EvAwait (saveChat "chat-1" "alice" "Wallet") (Ok tt);
               EvDo newDate 1000;
               EvAwait (saveMessages [user_row sample_user_message "chat-1" 1000]) (Ok tt);
               EvDo generateUUID "uuid-0"]).
  set (cfg := streamTextConfig "prompt" sample_model [sample_user_message] alice "chat-1").
  set (post := [EvDo (streamText cfg) {| result_handle := 0 |};
                EvDo (consoleLog "carmen:chat:api:chat:finish" "uuid-0"
                                 {| result_handle := 0 |}) tt;
                EvDo (mergeIntoDataStream {| result_handle := 0 |}) tt]).
  exists pre, post, "uuid-0".
  assert (Htrace : trace (run world (POST sample_models "prompt" sample_request) w)
                   = pre ++ EvDo (writeData "user-message-id" "uuid-0") tt :: post)
    by reflexivity.
  split; [exact Htrace|].
  exact (POST_persists_before_streaming world sample_models "prompt" sample_request
           w pre post _ Htrace (or_introl eq_refl)).
Defined.

(** C5, as stated, fails: the identifier announced by the metadata event
    is not the identifier of the assistant message.  In the sample turn
    the stream announces [uuid-0] while the assistant row that the
    write-back persists keeps the engine's [msg-0]. *)
Lemma metadata_id_not_assistant_id : ~ metadata_id_names_assistant_message.
Proof.
  intros H.
  set (w := sample_world (Some alice) empty_store never_fails).
  set (t := turn sample_models "prompt" sample_request w).
  set (row := {| db_id := "msg-0"; db_chatId := "chat-1"; db_role := assistant;
                 db_content := Parts [ToolCallPart "call-0" "getWalletAddress"];
                 db_createdAt := 1001 |}).
  assert (Hbad : db_id row = "uuid-0").
  { apply (H sample_models "prompt" sample_request w t.1
             (run world (onFinish
                           {| captured_session := alice; captured_id := "chat-1" |}
                           (engine_run
                              (streamTextConfig "prompt" sample_model
                                 [sample_user_message] alice "chat-1")
                              sample_decide).2)
                  (final t.1))).
    - vm_compute. reflexivity.
    - vm_compute. left. reflexivity.
    - vm_compute. right. left. reflexivity.
    - reflexivity. }
  discriminate Hbad.
Qed.

(** C5, amended: when a turn submission is answered with the streamed
    response, the first thing written to the stream is the metadata event
    of type [user-message-id] whose content is the identifier
    [generateUUID] has just returned; nothing is written and generation
    is not started before it, and the start of generation and the relay
    of its output follow it. *)
Theorem POST_first_stream_event_is_metadata {St : Type} (env : Env St)
    (models : list Model) (systemPrompt : string) (request : TurnRequest)
    (s : St) (resp : Response) :
  outcome (run env (POST models systemPrompt request) s) = Ok resp ->
  body resp = BodyDataStream ->
  exists pre userMessageId cfg result,
    trace (run env (POST models systemPrompt request) s) =
      pre ++ [EvDo generateUUID userMessageId;
              EvDo (writeData "user-message-id" userMessageId) tt;
              EvDo (streamText cfg) result;
              EvDo (consoleLog "carmen:chat:api:chat:finish" userMessageId result) tt;
              EvDo (mergeIntoDataStream result) tt] /\
    quiet pre.
Proof.
  intros Hout Hbody.
  destruct (run_POST_shape env models systemPrompt request s)
    as [[_ Hno] | (session & sess & userId & model & userMessage & chat & ensure &
                   createdAt & userMessageId & result &
                   _ & _ & _ & Hens & Hshape & _)].
  { exfalso. exact (Hno resp Hout Hbody). }
  rewrite Hshape.
  exists (EvAwait auth (Ok session) ::
          EvAwait (getChatById (req_id request)) (Ok chat) ::
          ensure ++
          [EvDo newDate createdAt;
           EvAwait (saveMessages [user_row userMessage (req_id request) createdAt])
                   (Ok tt)]),
         userMessageId,
         (streamTextConfig systemPrompt model (req_messages request) sess
                           (req_id request)),
         result.
  split.
  - unfold streaming_events. simpl. rewrite <- app_assoc. reflexivity.
  - destruct chat as [chat|]; simpl in Hens.
    + subst ensure. repeat constructor.
    + destruct Hens as [title ->]. repeat constructor.
Qed.

Lemma POST_first_stream_event_is_metadata_witness :
  let r := run world (POST sample_models "prompt" sample_request)
               (sample_world (Some alice) empty_store never_fails) in
  outcome r = Ok {| body := BodyDataStream; status := 200 |} /\
  exists pre userMessageId cfg result,
    trace r =
      pre ++ [EvDo generateUUID userMessageId;
              EvDo (writeData "user-message-id" userMessageId) tt;
              EvDo (streamText cfg) result;
              EvDo (consoleLog "carmen:chat:api:chat:finish" userMessageId result) tt;
              EvDo (mergeIntoDataStream result) tt] /\
    quiet pre.
Proof.
  intros r. split; [vm_compute; reflexivity|].
  exact (POST_first_stream_event_is_metadata world sample_models "prompt"
           sample_request (sample_world (Some alice) empty_store never_fails)
           {| body := BodyDataStream; status := 200 |} eq_refl eq_refl).
Defined.

(** In the reference environment the client's stream starts with the
    metadata event and ends with the engine's finish event. *)
Example POST_sample_stream :
  let r := run world (POST sample_models "prompt" sample_request)
               (sample_world (Some alice) empty_store never_fails) in
  head (w_stream (final r)) = Some (metadata "user-message-id" "uuid-0") /\
  List.filter is_finish (w_stream (final r)) =
    [finish (response_messages
               (engine_run (streamTextConfig "prompt" sample_model
                              [sample_user_message] alice "chat-1")
                           sample_decide).2)].
Proof. vm_compute. split; reflexivity. Qed.

(** ** The finish-time write-back *)

Section OnFinishRun.
Context {St : Type} (env : Env St).

(** The rows built by the [map] callback: one [new Date()] per message,
    the engine's id, role and content kept, filed under the chat. *)
Lemma run_response_rows (id : string) (ms : list Message) (s : St) :
  exists rows dates s',
    run env (mapM (fun message =>
                     Do newDate (fun createdAt =>
                       Ret {| db_id := msg_id message; db_chatId := id;
                              db_role := msg_role message;
                              db_content := msg_content message;
                              db_createdAt := createdAt |})) ms) s
      = {| outcome := Ok rows; trace := dates; final := s' |} /\
    map db_id rows = map msg_id ms /\
    Forall (fun row => db_chatId row = id) rows /\
    Forall (fun e => is_newDate e = true) dates.
Proof.
  set (f := fun message : Message =>
              Do newDate (fun createdAt =>
                Ret {| db_id := msg_id message; db_chatId := id;
                       db_role := msg_role message;
                       db_content := msg_content message;
                       db_createdAt := createdAt |})).
  revert s. induction ms as [|m rest IH]; intros s.
  - exists [], [], s. repeat split; constructor.
  - change (mapM f (m :: rest))
      with (bind (f m) (fun y => bind (mapM f rest) (fun ys => Ret (y :: ys)))).
    rewrite run_bind.
    replace (run env (f m) s)
      with (let '(t, s1) := on_eff env newDate s in
            {| outcome := Ok {| db_id := msg_id m; db_chatId := id;
                                db_role := msg_role m;
                                db_content := msg_content m;
                                db_createdAt := t |};
               trace := [EvDo newDate t]; final := s1 |})
      by (unfold f; simpl; destruct (on_eff env newDate s); reflexivity).
    destruct (on_eff env newDate s) as [t s1]. cbv zeta iota beta.
    cbn [outcome trace final].
    destruct (IH s1) as (rows & dates & s' & Hrun & Hids & Hchat & Hdates).
    rewrite run_bind, Hrun. simpl.
    exists ({| db_id := msg_id m; db_chatId := id; db_role := msg_role m;
               db_content := msg_content m; db_createdAt := t |} :: rows),
           (EvDo newDate t :: dates), s'.
    repeat split; simpl; rewrite ?app_nil_r; try constructor; auto; congruence.
Qed.

Lemma run_onFinish_shape (clo : OnFinishClosure) (response : EngineResponse) (s : St) :
  let r := run env (onFinish clo response) s in
  outcome r = Ok tt /\
  (trace r = [] \/
   exists dates rows o,
     Forall (fun e => is_newDate e = true) dates /\
     map db_id rows =
       map msg_id (sanitizeResponseMessages (response_messages response)) /\
     Forall (fun row => db_chatId row = captured_id clo) rows /\
     trace r =
       dates ++ EvAwait (saveMessages rows) o ::
       match o with
       | Ok _ => []
       | Threw _ => [EvDo (consoleError "Failed to save chat") tt]
       end).
Proof.
  unfold onFinish.
  destruct (truthy _); [|simpl; auto].
  unfold_prog. rewrite run_try_catch, run_bind.
  destruct (run_response_rows (captured_id clo)
              (sanitizeResponseMessages (response_messages response)) s)
    as (rows & dates & s' & Hrun & Hids & Hchat & Hdates).
  simpl in *. rewrite Hrun. simpl.
  destruct (on_call env (saveMessages rows) s') as [[[]|e] s2] eqn:Hsave; simpl.
  - split; [reflexivity|]. right. exists dates, rows, (Ok tt). auto.
  - destruct (on_eff env (consoleError "Failed to save chat") s2) as [[] s3]; simpl.
    split; [reflexivity|]. right. exists dates, rows, (Threw e).
    rewrite <- app_assoc. auto.
Qed.

End OnFinishRun.

(** ** The message sanitizer *)

(** [simpl] exposes the list instance of [omap]; this folds it back. *)
Ltac fold_omap :=
  change (list_omap _ _ ?f ?l) with (omap f l) in *.

Section Sanitizer.

Lemma part_complete_result (ids : list string) (p : Part) :
  part_result_id p <> None -> part_complete ids p = true.
Proof. destruct p; simpl; fold_omap; congruence. Qed.

(** Dropping incomplete parts drops no tool result. *)
Lemma result_ids_filter (ids : list string) (ps : list Part) :
  omap part_result_id (List.filter (part_complete ids) ps) = omap part_result_id ps.
Proof.
  induction ps as [|p ps IH]; simpl; fold_omap; [reflexivity|].
  destruct (part_complete ids p) eqn:Hp; simpl; fold_omap.
  - rewrite IH. reflexivity.
  - rewrite IH. destruct (part_result_id p) eqn:Hr; [|reflexivity].
    rewrite part_complete_result in Hp by congruence. discriminate.
Qed.

Lemma forallb_filter_complete (ids : list string) (ps : list Part) :
  forallb (part_complete ids) (List.filter (part_complete ids) ps) = true.
Proof.
  induction ps as [|p ps IH]; simpl; fold_omap; [reflexivity|].
  destruct (part_complete ids p) eqn:Hp; simpl; fold_omap; [rewrite Hp|]; exact IH.
Qed.

(** What a message contributes to the result identifiers, before and
    after sanitization. *)
Lemma sanitize_message_result_ids (ids : list string) (m : Message) :
  omap part_result_id
       (from_option (fun m' => content_parts (msg_content m')) []
                    (sanitize_message ids m))
  = omap part_result_id (content_parts (msg_content m)).
Proof.
  unfold sanitize_message. destruct (msg_content m) as [txt|ps] eqn:Hc.
  - simpl; fold_omap. rewrite Hc. reflexivity.
  - destruct (forallb (part_complete ids) ps); simpl; fold_omap.
    + rewrite Hc. reflexivity.
    + rewrite <- (result_ids_filter ids ps).
      destruct (List.filter (part_complete ids) ps); reflexivity.
Qed.

Lemma omap_app_parts (xs ys : list Part) :
  omap part_result_id (xs ++ ys) = omap part_result_id xs ++ omap part_result_id ys.
Proof.
  induction xs as [|x xs IH]; simpl; fold_omap; [reflexivity|].
  destruct (part_result_id x); simpl; fold_omap; rewrite IH; reflexivity.
Qed.

(** Sanitization with any reference identifiers keeps the result
    identifiers of the list. *)
Lemma toolResultIds_omap_sanitize (ids : list string) (ms : list Message) :
  toolResultIds (omap (sanitize_message ids) ms) = toolResultIds ms.
Proof.
  unfold toolResultIds. induction ms as [|m ms IH]; simpl; fold_omap; [reflexivity|].
  rewrite omap_app_parts, <- IH, <- (sanitize_message_result_ids ids m).
  destruct (sanitize_message ids m) as [m'|]; simpl; fold_omap.
  - rewrite omap_app_parts. reflexivity.
  - reflexivity.
Qed.

(** A sanitized message is a fixed point. *)
Lemma sanitize_message_fixed (ids : list string) (m m' : Message) :
  sanitize_message ids m = Some m' -> sanitize_message ids m' = Some m'.
Proof.
  unfold sanitize_message at 1.
  destruct (msg_content m) as [txt|ps] eqn:Hc.
  - intros [= <-]. unfold sanitize_message. rewrite Hc. reflexivity.
  - destruct (forallb (part_complete ids) ps) eqn:Hall.
    + intros [= <-]. unfold sanitize_message. rewrite Hc, Hall. reflexivity.
    + destruct (List.filter (part_complete ids) ps) as [|p kept] eqn:Hf;
        [discriminate|].
      intros [= <-]. unfold sanitize_message. cbn [msg_content].
      rewrite <- Hf, forallb_filter_complete. reflexivity.
Qed.

Lemma omap_sanitize_fixed (ids : list string) (ms : list Message) :
  omap (sanitize_message ids) (omap (sanitize_message ids) ms)
  = omap (sanitize_message ids) ms.
Proof.
  induction ms as [|m ms IH]; simpl; fold_omap; [reflexivity|].
  destruct (sanitize_message ids m) as [m'|] eqn:Hm; simpl; fold_omap.
  - rewrite (sanitize_message_fixed ids m m' Hm), IH. reflexivity.
  - exact IH.
Qed.



End Sanitizer.

(** C3: the sanitizer is idempotent. *)
Theorem sanitizeResponseMessages_idempotent (M : list Message) :
  sanitizeResponseMessages (sanitizeResponseMessages M) = sanitizeResponseMessages M.
Proof.
  unfold sanitizeResponseMessages.
  rewrite toolResultIds_omap_sanitize. apply omap_sanitize_fixed.
Qed.

(** A call without result is removed, a matched call is kept, and the
    order is unchanged. *)
Example sanitize_sample :
  sanitizeResponseMessages
    [ {| msg_id := "a"; msg_role := assistant;
         msg_content := Parts [TextPart "Let me check"; ToolCallPart "c1" "getWalletAddress"] |};
      {| msg_id := "b"; msg_role := tool;
         msg_content := Parts [ToolResultPart "c1" "getWalletAddress" "none"] |};
      {| msg_id := "c"; msg_role := assistant;
         msg_content := Parts [ToolCallPart "c2" "createEvmWallet"] |};
      {| msg_id := "d"; msg_role := assistant;
         msg_content := Parts [TextPart "Creating"; ToolCallPart "c3" "createEvmWallet"] |} ]
  = [ {| msg_id := "a"; msg_role := assistant;
         msg_content := Parts [TextPart "Let me check"; ToolCallPart "c1" "getWalletAddress"] |};
      {| msg_id := "b"; msg_role := tool;
         msg_content := Parts [ToolResultPart "c1" "getWalletAddress" "none"] |};
      {| msg_id := "d"; msg_role := assistant;
         msg_content := Parts [TextPart "Creating"] |} ].
Proof. reflexivity. Qed.

(** ** The write-back and the stream *)

(** An element that occurs neither before nor after a position of a list
    occurs only there. *)
Lemma split_unique {A} (P : A -> bool) (l1 l2 pre post : list A) (a b : A) :
  l1 ++ a :: l2 = pre ++ b :: post ->
  Forall (fun x => P x = false) l1 ->
  Forall (fun x => P x = false) l2 ->
  P b = true ->
  pre = l1 /\ b = a /\ post = l2.
Proof.
  intros Heq H1 H2 Hb. revert pre Heq.
  induction H1 as [|x l1 Hx _ IH]; intros pre Heq; simpl in Heq.
  - apply cons_split in Heq as [(-> & -> & ->) | (pre' & -> & Heq)]; [auto|].
    exfalso. rewrite Heq in H2. apply Forall_app in H2 as [_ H2].
    inversion H2; congruence.
  - apply cons_split in Heq as [(-> & -> & ->) | (pre' & -> & Heq)].
    + congruence.
    + destruct (IH pre' Heq) as (-> & -> & ->). auto.
Qed.

Lemma newDate_not_saved (dates : list Event) :
  Forall (fun e => is_newDate e = true) dates ->
  Forall (fun e => match saved_rows e with Some _ => true | None => false end = false)
         dates.
Proof.
  induction 1 as [|e dates He _ IH]; constructor; [|exact IH].
  destruct e as [c o|a r]; [discriminate|]. reflexivity.
Qed.

Lemma newDate_not_stream_write (dates : list Event) :
  Forall (fun e => is_newDate e = true) dates ->
  Forall (fun e => is_stream_write e = false) dates.
Proof.
  induction 1 as [|e dates He _ IH]; constructor; [|exact IH].
  destruct e as [c o|[]]; try discriminate; reflexivity.
Qed.

Lemma onFinish_no_stream_write {St : Type} (env : Env St)
    (clo : OnFinishClosure) (response : EngineResponse) (s : St) :
  Forall (fun e => is_stream_write e = false)
         (trace (run env (onFinish clo response) s)).
Proof.
  destruct (run_onFinish_shape env clo response s)
    as [_ [Hnil | (dates & rows & o & Hdates & _ & _ & Htrace)]].
  - rewrite Hnil. constructor.
  - rewrite Htrace. apply Forall_app.
    split; [apply newDate_not_stream_write; exact Hdates|].
    constructor; [reflexivity|]. destruct o; repeat constructor.
Qed.

Lemma world_call_stream (c : Call) (w : World) :
  w_stream (world_call c w).2 = w_stream w.
Proof.
  unfold world_call. destruct (w_fails w c); [reflexivity|].
  destruct c; reflexivity.
Qed.

(** In the reference environment, a run that writes nothing to the
    stream leaves the client's stream as it was. *)
Lemma world_stream_unchanged {R} (p : Prog R) (w : World) :
  Forall (fun e => is_stream_write e = false) (trace (run world p w)) ->
  w_stream (final (run world p w)) = w_stream w.
Proof.
  revert w. induction p as [r|e|c k IH|a k IH]; intros w; simpl; try reflexivity.
  - pose proof (world_call_stream c w) as Hcall.
    destruct (world_call c w) as [o w1]. simpl in *.
    intros Hall. inversion Hall as [|? ? _ Hrest]; subst.
    rewrite (IH o w1 Hrest). exact Hcall.
  - assert (Heff : is_stream_write (EvDo a (world_eff a w).1) = false ->
                   w_stream (world_eff a w).2 = w_stream w).
    { destruct a; simpl; try reflexivity; try discriminate.
      destruct (engine_run cfg (w_model w)); reflexivity. }
    destruct (world_eff a w) as [x w1]. simpl in *.
    intros Hall. inversion Hall as [|? ? Ha Hrest]; subst.
    rewrite (IH x w1 Hrest). exact (Heff Ha).
Qed.

(** Whatever the store does at finish time, the callback leaves the
    client's stream of the reference environment untouched. *)
Lemma onFinish_keeps_stream (clo : OnFinishClosure) (response : EngineResponse)
    (w : World) :
  w_stream (final (run world (onFinish clo response) w)) = w_stream w.
Proof. apply world_stream_unchanged, onFinish_no_stream_write. Qed.

(** C2: the finish-time callback always returns normally and writes
    nothing to the client's stream; when the write-back [saveMessages]
    rejects, the only thing that follows is the log entry
    [Failed to save chat]. *)
Theorem onFinish_swallows_store_failure {St : Type} (env : Env St)
    (clo : OnFinishClosure) (response : EngineResponse) (s : St) :
  let r := run env (onFinish clo response) s in
  outcome r = Ok tt /\
  Forall (fun e => is_stream_write e = false) (trace r) /\
  forall rows err pre post,
    trace r = pre ++ EvAwait (saveMessages rows) (Threw err) :: post ->
    post = [EvDo (consoleError "Failed to save chat") tt].
Proof.
  intros r. subst r.
  destruct (run_onFinish_shape env clo response s)
    as [Hout [Hnil | (dates & rows' & o & Hdates & _ & _ & Htrace)]].
  - split; [exact Hout|]. split; [apply onFinish_no_stream_write|].
    rewrite Hnil. intros rows err pre post H. destruct (nil_split _ _ _ H).
  - split; [exact Hout|]. split; [apply onFinish_no_stream_write|].
    rewrite Htrace. intros rows err pre post Heq.
    apply (split_unique
             (fun e => match saved_rows e with Some _ => true | None => false end))
      in Heq as (_ & Hev & ->).
    + apply (f_equal rejected) in Hev. simpl in Hev.
      destruct o; [discriminate|reflexivity].
    + apply newDate_not_saved. exact Hdates.
    + destruct o; repeat constructor.
    + reflexivity.
Qed.

Lemma onFinish_swallows_store_failure_witness :
  let clo := {| captured_session := alice; captured_id := "chat-1" |} in
  let response :=
    {| response_messages :=
         [ {| msg_id := "msg-0"; msg_role := assistant; msg_content := Text "Hello" |} ] |} in
  let row := {| db_id := "msg-0"; db_chatId := "chat-1"; db_role := assistant;
                db_content := Text "Hello"; db_createdAt := 1000 |} in
  let r := run world (onFinish clo response)
               (sample_world (Some alice) alice_store write_back_fails) in
  outcome r = Ok tt /\
  trace r = [EvDo newDate 1000;
             EvAwait (saveMessages [row]) (Threw (StoreError "store unavailable"));
             EvDo (consoleError "Failed to save chat") tt] /\
  [EvDo (consoleError "Failed to save chat") tt]
    = [EvDo (consoleError "Failed to save chat") tt].
Proof.
  intros clo response row r.
  destruct (onFinish_swallows_store_failure world clo response
              (sample_world (Some alice) alice_store write_back_fails))
    as (Hout & _ & Hlog).
  split; [exact Hout|]. split; [reflexivity|].
  exact (Hlog [row] (StoreError "store unavailable") [EvDo newDate 1000]
              [EvDo (consoleError "Failed to save chat") tt] eq_refl).
Defined.

(** A whole turn whose write-back fails: the response is the streamed
    one, the client's stream is the same as when the write-back succeeds
    and ends with the finish event, and only the log records the
    failure. *)
Example turn_with_failing_write_back :
  let ok := turn sample_models "prompt" sample_request
                 (sample_world (Some alice) empty_store never_fails) in
  let ko := turn sample_models "prompt" sample_request
                 (sample_world (Some alice) empty_store write_back_fails) in
  outcome ko.1 = Ok {| body := BodyDataStream; status := 200 |} /\
  option_map outcome ko.2 = Some (Ok tt) /\
  option_map (fun r => w_stream (final r)) ko.2
    = option_map (fun r => w_stream (final r)) ok.2 /\
  option_map (fun r => option_map is_finish (last (w_stream (final r)))) ko.2
    = Some (Some true) /\
  option_map (fun r => w_console (final r)) ko.2
    = Some ["carmen:chat:api:chat:finish"; "Failed to save chat"] /\
  option_map (fun r => map db_id (messages (w_store (final r)))) ko.2 = Some ["u1"] /\
  option_map (fun r => map db_id (messages (w_store (final r)))) ok.2
    = Some ["u1"; "msg-0"; "msg-1"].
Proof. vm_compute. repeat split; reflexivity. Qed.

(** ** The step budget *)

Section Engine.
Variable cfg : StreamTextConfig.
Variable model : list Message -> Decision.

Lemma engine_steps_tool_calls (budget : nat) (history : list Message) (n : nat) :
  (length (List.filter is_tool_call (engine_steps budget cfg model history n).1)
   <= budget)%nat.
Proof.
  revert history n. induction budget as [|budget IH]; intros history n; simpl.
  - lia.
  - destruct (model history) as [text|t|]; simpl; [| |lia].
    + specialize (IH (history ++ [ {| msg_id := engine_id n; msg_role := assistant;
                                      msg_content := Parts [TextPart text] |} ])
                     (S n)).
      destruct (engine_steps budget cfg model _ (S n)) as [evs ms]. simpl in *. lia.
    + match goal with
      | |- context [engine_steps budget cfg model ?h ?k] =>
          specialize (IH h k); destruct (engine_steps budget cfg model h k) as [evs ms]
      end.
      simpl in *. lia.
Qed.

Lemma engine_steps_no_finish (budget : nat) (history : list Message) (n : nat) :
  Forall (fun e => is_finish e = false) (engine_steps budget cfg model history n).1.
Proof.
  revert history n. induction budget as [|budget IH]; intros history n; simpl.
  - constructor.
  - destruct (model history) as [text|t|]; simpl; [| |constructor].
    + specialize (IH (history ++ [ {| msg_id := engine_id n; msg_role := assistant;
                                      msg_content := Parts [TextPart text] |} ])
                     (S n)).
      destruct (engine_steps budget cfg model _ (S n)) as [evs ms]. simpl in *.
      constructor; [reflexivity|exact IH].
    + match goal with
      | |- context [engine_steps budget cfg model ?h ?k] =>
          specialize (IH h k); destruct (engine_steps budget cfg model h k) as [evs ms]
      end.
      simpl in *. repeat (constructor; [reflexivity|]). exact IH.
Qed.

(** A generation makes at most [maxSteps] tool calls and ends with its
    single finish event. *)
Lemma engine_run_bounded :
  (length (List.filter is_tool_call (engine_run cfg model).1) <= cfg_maxSteps cfg)%nat /\
  exists gen,
    (engine_run cfg model).1
      = gen ++ [finish (response_messages (engine_run cfg model).2)] /\
    Forall (fun e => is_finish e = false) gen.
Proof.
  unfold engine_run.
  pose proof (engine_steps_tool_calls (cfg_maxSteps cfg) (cfg_messages cfg) 0) as Hle.
  pose proof (engine_steps_no_finish (cfg_maxSteps cfg) (cfg_messages cfg) 0) as Hnf.
  destruct (engine_steps (cfg_maxSteps cfg) cfg model (cfg_messages cfg) 0)
    as [evs ms]. simpl in *.
  split.
  - rewrite List.filter_app, length_app. simpl. lia.
  - exists evs. split; [reflexivity|exact Hnf].
Qed.

End Engine.

(** C8: every generation that [POST] starts is configured with a budget
    of 5 steps; whatever the model decides, such a generation makes at
    most 5 tool calls and ends with its finish event. *)
Theorem POST_step_budget {St : Type} (env : Env St) (models : list Model)
    (systemPrompt : string) (request : TurnRequest) (s : St)
    (cfg : StreamTextConfig) (result : StreamTextResult) :
  In (EvDo (streamText cfg) result)
     (trace (run env (POST models systemPrompt request) s)) ->
  cfg_maxSteps cfg = 5%nat /\
  forall model : list Message -> Decision,
    (length (List.filter is_tool_call (engine_run cfg model).1) <= 5)%nat /\
    exists gen,
      (engine_run cfg model).1
        = gen ++ [finish (response_messages (engine_run cfg model).2)] /\
      Forall (fun e => is_finish e = false) gen.
Proof.
  intros Hin.
  assert (Hmax : cfg_maxSteps cfg = 5%nat).
  { destruct (run_POST_shape env models systemPrompt request s)
      as [[Hq _] | (session & sess & userId & model & userMessage & chat & ensure &
                    createdAt & userMessageId & result' &
                    _ & _ & _ & Hens & Hshape & _)].
    { exfalso. unfold quiet in Hq. rewrite List.Forall_forall in Hq.
      destruct (Hq _ Hin) as [_ Hg]. discriminate Hg. }
    rewrite Hshape in Hin. clear Hshape.
    assert (Hcfg : Some cfg
                   = Some (streamTextConfig systemPrompt model (req_messages request)
                                            sess (req_id request))).
    { destruct chat as [chat|]; simpl in Hens;
        [subst ensure | destruct Hens as [title ->]];
        simpl in Hin;
        repeat (destruct Hin as [Hin|Hin];
                [apply (f_equal started_cfg) in Hin; simpl in Hin;
                 first [discriminate Hin | symmetry; exact Hin]|]);
        destruct Hin. }
    injection Hcfg as ->. reflexivity. }
  split; [exact Hmax|].
  intros model. rewrite <- Hmax. apply engine_run_bounded.
Qed.

Lemma POST_step_budget_witness :
  let w := sample_world (Some alice) empty_store never_fails in
  let cfg := streamTextConfig "prompt" sample_model [sample_user_message] alice "chat-1" in
  cfg_maxSteps cfg = 5%nat /\
  forall model : list Message -> Decision,
    (length (List.filter is_tool_call (engine_run cfg model).1) <= 5)%nat /\
    exists gen,
      (engine_run cfg model).1
        = gen ++ [finish (response_messages (engine_run cfg model).2)] /\
      Forall (fun e => is_finish e = false) gen.
Proof.
  intros w cfg.
  apply (POST_step_budget world sample_models "prompt" sample_request w cfg
           {| result_handle := 0 |}).
  vm_compute. do 8 right. left. reflexivity.
Defined.

(** A model that never stops asking for tools is cut off after the fifth
    call, and the generation still finishes. *)
Example insistent_model_is_cut_off :
  let cfg := streamTextConfig "prompt" sample_model [sample_user_message] alice "chat-1" in
  let evs := (engine_run cfg insistent_model).1 in
  length (List.filter is_tool_call evs) = 5%nat /\
  option_map is_finish (last evs) = Some true /\
  length (response_messages (engine_run cfg insistent_model).2) = 10%nat.
Proof. vm_compute. repeat split; reflexivity. Qed.


(** * Further properties of the handlers *)

(** ** All runs of [DELETE] *)

Lemma run_DELETE_cases {St : Type} (env : Env St) (request : DeleteRequest) (s : St) :
  DELETE_run request (outcome (run env (DELETE request) s))
             (trace (run env (DELETE request) s)).
Proof.
  unfold DELETE.
  destruct (truthy (searchParams_get "id" (searchParams request))) as [id|] eqn:Hid.
  2:{ simpl. apply D_no_id. exact Hid. }
  unfold_prog. simpl.
  destruct (on_call env auth s) as [[session|e] s1]; simpl;
    [|eapply D_auth_rejected; exact Hid].
  assert (Hbind : option_bind Session User session_user session
                  = session ≫= session_user) by reflexivity.
  rewrite Hbind. clear Hbind.
  destruct (session ≫= session_user) as [sessionUser|] eqn:Huser; simpl;
    [|eapply D_no_user; eassumption].
  destruct (on_call env (getChatById id) s1) as [[[chat|]|e] s2]; simpl;
    [| eapply D_no_chat; eassumption | eapply D_lookup_rejected; eassumption].
  case_bool_decide as Hown; simpl.
  - eapply D_not_owner; eassumption.
  - assert (Hown' : Some (chat_userId chat) = user_id sessionUser).
    { destruct (decide (Some (chat_userId chat) = user_id sessionUser)); tauto. }
    destruct (on_call env (deleteChatById id) s2) as [[[]|e] s3]; simpl.
    + eapply D_deleted; eassumption.
    + eapply D_delete_rejected; eassumption.
Qed.

(** ** All runs of [POST] *)

Lemma run_POST_cases {St : Type} (env : Env St) (models : list Model)
    (systemPrompt : string) (request : TurnRequest) (s : St) :
  POST_run models systemPrompt request
           (outcome (run env (POST models systemPrompt request) s))
           (trace (run env (POST models systemPrompt request) s)).
Proof.
  unfold POST. unfold_prog. simpl.
  destruct (on_call env auth s) as [[session|?] ?]; simpl;
    [|apply P_auth_rejected].
  destruct (session_user_id _) as [[sess userId]|] eqn:Hsess; simpl;
    [|apply P_unauthorized; exact Hsess].
  destruct (find _ models) as [model|] eqn:Hfind; simpl;
    [|eapply P_model_not_found; eassumption].
  destruct (getMostRecentUserMessage _) as [userMessage|] eqn:Hum; simpl;
    [|eapply P_no_user_message; eassumption].
  assert (Hacc : accepted models request session sess userId model userMessage)
    by (repeat split; assumption).
  destruct (on_call env (getChatById _) _) as [[[chat|]|?] ?]; simpl;
    [| |eapply P_lookup_rejected; exact Hacc].
  - run_step. run_step.
    + repeat run_step. cbn in *. destruct_units.
      apply (P_streamed models systemPrompt request session sess userId model
               userMessage (Some chat) []); [exact Hacc|reflexivity].
    + apply (P_saveMessages_rejected models systemPrompt request session sess userId
               model userMessage (Some chat) []); [exact Hacc|reflexivity].
  - destruct (on_call env (generateTitleFromUserMessage _) _)
      as [[title|?] ?]; simpl; [|eapply P_title_rejected; exact Hacc].
    run_step; [|eapply P_saveChat_rejected; exact Hacc].
    run_step. run_step.
    + repeat run_step. cbn in *. destruct_units.
      apply (P_streamed models systemPrompt request session sess userId model
               userMessage None
               [EvAwait (generateTitleFromUserMessage userMessage) (Ok title);
                EvAwait (saveChat (req_id request) userId title) (Ok tt)]);
        [exact Hacc|exists title; reflexivity].
    + cbn in *. destruct_units.
      apply (P_saveMessages_rejected models systemPrompt request session sess userId
               model userMessage None
               [EvAwait (generateTitleFromUserMessage userMessage) (Ok title);
                EvAwait (saveChat (req_id request) userId title) (Ok tt)]);
        [exact Hacc|exists title; reflexivity].
Qed.

(** ** Deletion: who can delete, and what is answered *)

(** X1: [deleteChatById] is called at most once, for the id of the
    request, as the last call, and only after the session resolved to a
    user and the lookup returned a chat whose [userId] is that user's
    id. *)
Theorem DELETE_deletes_only_for_owner {St : Type} (env : Env St)
    (request : DeleteRequest) (s : St) (pre post : list Event) (e : Event) :
  trace (run env (DELETE request) s) = pre ++ e :: post ->
  is_delete e = true ->
  exists id session sessionUser chat,
    truthy (searchParams_get "id" (searchParams request)) = Some id /\
    deleted_id e = Some id /\
    pre = [EvAwait auth (Ok session); EvAwait (getChatById id) (Ok (Some chat))] /\
    session ≫= session_user = Some sessionUser /\
    user_id sessionUser = Some (chat_userId chat) /\
    post = [].
Proof.
  intros Htrace He. revert Htrace.
  destruct (run_DELETE_cases env request s); intros Htrace;
    split_trace Htrace; simpl in He; try discriminate He.
  all: exists id, session, sessionUser, chat; repeat split; auto.
Qed.

Lemma DELETE_deletes_only_for_owner_witness :
  let w := sample_world (Some alice) alice_store never_fails in
  exists pre post e,
    trace (run world (DELETE delete_chat_1) w) = pre ++ e :: post /\
    is_delete e = true /\
    exists id session sessionUser chat,
      truthy (searchParams_get "id" (searchParams delete_chat_1)) = Some id /\
      deleted_id e = Some id /\
      pre = [EvAwait auth (Ok session); EvAwait (getChatById id) (Ok (Some chat))] /\
      session ≫= session_user = Some sessionUser /\
      user_id sessionUser = Some (chat_userId chat) /\
      post = [].
Proof.
  intros w.
  exists [EvAwait auth (Ok (Some alice));
          EvAwait (getChatById "chat-1") (Ok (Some alice_chat))],
         [], (EvAwait (deleteChatById "chat-1") (Ok tt)).
  assert (Htrace : trace (run world (DELETE delete_chat_1) w)
                   = [EvAwait auth (Ok (Some alice));
                      EvAwait (getChatById "chat-1") (Ok (Some alice_chat))]
                     ++ EvAwait (deleteChatById "chat-1") (Ok tt) :: [])
    by (vm_compute; reflexivity).
  split; [exact Htrace|]. split; [reflexivity|].
  exact (DELETE_deletes_only_for_owner world delete_chat_1 w _ _ _ Htrace eq_refl).
Defined.

(** X2: [DELETE] rejects only when resolving the session rejects, and
    then nothing else was called; in every other run it answers one of
    four fixed responses, so an error thrown by the store is never passed
    on to the caller. *)
Theorem DELETE_answers {St : Type} (env : Env St) (request : DeleteRequest) (s : St) :
  match outcome (run env (DELETE request) s) with
  | Ok resp =>
      resp = text_response "Not Found" 404 \/
      resp = text_response "Unauthorized" 401 \/
      resp = text_response "Chat deleted" 200 \/
      resp = text_response "An error occurred while processing your request" 500
  | Threw err => trace (run env (DELETE request) s) = [EvAwait auth (Threw err)]
  end.
Proof.
  destruct (run_DELETE_cases env request s); unfold delete_error; auto.
Qed.

(** X3: the answer is 200 exactly when the last call of the run is a
    [deleteChatById] that resolved. *)
Theorem DELETE_200_iff_deleted {St : Type} (env : Env St)
    (request : DeleteRequest) (s : St) :
  (exists resp, outcome (run env (DELETE request) s) = Ok resp /\ status resp = 200)
  <->
  option_map delete_resolved (last (trace (run env (DELETE request) s))) = Some true.
Proof.
  destruct (run_DELETE_cases env request s); simpl; split;
    try (intros Hlast; discriminate Hlast);
    try (intros (resp & Hresp & Hstatus); try discriminate Hresp;
         injection Hresp as <-; discriminate Hstatus).
  - intros _. reflexivity.
  - intros _. eexists. split; reflexivity.
Qed.

(** X4: when the lookup or the deletion rejects, the answer is the 500
    response with its fixed text. *)
Theorem DELETE_store_failure_is_500 {St : Type} (env : Env St)
    (request : DeleteRequest) (s : St) (e : Event) :
  In e (trace (run env (DELETE request) s)) ->
  is_auth e = false ->
  rejected e = true ->
  outcome (run env (DELETE request) s)
    = Ok (text_response "An error occurred while processing your request" 500) /\
  last (trace (run env (DELETE request) s)) = Some e.
Proof.
  intros Hin Hauth Hrej. revert Hin.
  destruct (run_DELETE_cases env request s); simpl; intros Hin;
    repeat (destruct Hin as [<-|Hin]; [try discriminate Hauth; try discriminate Hrej|]);
    try destruct Hin.
  all: split; reflexivity.
Qed.

Lemma DELETE_store_failure_is_500_witness :
  let w := sample_world (Some alice) alice_store delete_fails in
  let e := EvAwait (deleteChatById "chat-1") (Threw (StoreError "store unavailable")) in
  In e (trace (run world (DELETE delete_chat_1) w)) /\
  outcome (run world (DELETE delete_chat_1) w)
    = Ok (text_response "An error occurred while processing your request" 500) /\
  last (trace (run world (DELETE delete_chat_1) w)) = Some e.
Proof.
  intros w e.
  assert (Hin : In e (trace (run world (DELETE delete_chat_1) w)))
    by (vm_compute; do 2 right; left; reflexivity).
  split; [exact Hin|].
  exact (DELETE_store_failure_is_500 world delete_chat_1 w e Hin eq_refl eq_refl).
Defined.

(** X5: with an id but without a session user, the answer is 401 and the
    store is not consulted at all: the lookup is never made. *)
Theorem DELETE_unauthenticated_no_lookup {St : Type} (env : Env St)
    (request : DeleteRequest) (s s1 : St) (id : string) (session : option Session) :
  truthy (searchParams_get "id" (searchParams request)) = Some id ->
  on_call env auth s = (Ok session, s1) ->
  session ≫= session_user = None ->
  run env (DELETE request) s =
    {| outcome := Ok (text_response "Unauthorized" 401);
       trace := [EvAwait auth (Ok session)]; final := s1 |}.
Proof.
  intros Hid Hauth Huser. unfold DELETE. rewrite Hid. unfold_prog. simpl.
  rewrite Hauth. simpl. rewrite Huser. reflexivity.
Qed.

Lemma DELETE_unauthenticated_no_lookup_witness :
  let w := sample_world None alice_store never_fails in
  run world (DELETE delete_chat_1) w =
    {| outcome := Ok (text_response "Unauthorized" 401);
       trace := [EvAwait auth (Ok None)]; final := w |}.
Proof.
  intros w.
  exact (DELETE_unauthenticated_no_lookup world delete_chat_1 w w "chat-1" None
           eq_refl eq_refl eq_refl).
Defined.

(** X6: the answer is 404 exactly when the [id] parameter is missing or
    empty; a chat that does not exist is never reported as 404. *)
Theorem DELETE_404_iff_no_id {St : Type} (env : Env St)
    (request : DeleteRequest) (s : St) :
  (exists resp, outcome (run env (DELETE request) s) = Ok resp /\ status resp = 404)
  <->
  (searchParams_get "id" (searchParams request) = None \/
   searchParams_get "id" (searchParams request) = Some "").
Proof.
  assert (Htruthy : truthy (searchParams_get "id" (searchParams request)) = None <->
                    (searchParams_get "id" (searchParams request) = None \/
                     searchParams_get "id" (searchParams request) = Some "")).
  { destruct (searchParams_get "id" (searchParams request)) as [v|]; simpl.
    - destruct (String.eqb_spec v "") as [->|Hne]; split; auto; try discriminate.
      intros [H|H]; [discriminate|]. injection H as ->. contradiction.
    - split; auto. }
  rewrite <- Htruthy. clear Htruthy.
  destruct (run_DELETE_cases env request s) as [Hid|id e Hid|id session Hid
    |id session sessionUser e Hid|id session sessionUser Hid
    |id session sessionUser chat Hid|id session sessionUser chat e Hid
    |id session sessionUser chat Hid];
    split; try (intros _; exact Hid);
    try (intros (resp & Hresp & Hstatus); try discriminate Hresp;
         injection Hresp as <-; discriminate Hstatus);
    try (intros Hnone; rewrite Hid in Hnone; discriminate Hnone).
  intros _. eexists. split; reflexivity.
Qed.

Example DELETE_empty_id_is_404 :
  run world (DELETE delete_empty_id) (sample_world (Some alice) alice_store never_fails)
  = {| outcome := Ok (text_response "Not Found" 404); trace := [];
       final := sample_world (Some alice) alice_store never_fails |}.
Proof. reflexivity. Qed.

(** X7: a session whose user has no id can never delete: whatever the
    store answers, [deleteChatById] is not called, and the answer is 401
    for an existing chat and 500 otherwise. *)
Theorem DELETE_user_without_id_never_deletes {St : Type} (env : Env St)
    (request : DeleteRequest) (s s1 : St) (session : Session) (sessionUser : User) :
  on_call env auth s = (Ok (Some session), s1) ->
  session_user session = Some sessionUser ->
  user_id sessionUser = None ->
  Forall (fun e => is_delete e = false) (trace (run env (DELETE request) s)) /\
  exists resp,
    outcome (run env (DELETE request) s) = Ok resp /\
    (status resp = 404 \/ status resp = 401 \/ status resp = 500).
Proof.
  intros Hauth Huser Hnoid. unfold DELETE.
  destruct (truthy (searchParams_get "id" (searchParams request))) as [id|].
  2:{ simpl. split; [constructor|]. eexists. split; [reflexivity|]. auto. }
  unfold_prog. simpl. rewrite Hauth. simpl. rewrite Huser. simpl.
  destruct (on_call env (getChatById id) s1) as [[[chat|]|e] s2]; simpl.
  - rewrite bool_decide_eq_true_2 by (rewrite Hnoid; discriminate). simpl.
    split; [repeat constructor|]. eexists. split; [reflexivity|]. auto.
  - split; [repeat constructor|]. eexists. split; [reflexivity|]. auto.
  - split; [repeat constructor|]. eexists. split; [reflexivity|]. auto.
Qed.

Lemma DELETE_user_without_id_never_deletes_witness :
  let w := sample_world (Some nameless) alice_store never_fails in
  Forall (fun e => is_delete e = false) (trace (run world (DELETE delete_chat_1) w)) /\
  exists resp,
    outcome (run world (DELETE delete_chat_1) w) = Ok resp /\
    (status resp = 404 \/ status resp = 401 \/ status resp = 500).
Proof.
  intros w.
  exact (DELETE_user_without_id_never_deletes world delete_chat_1 w w nameless
           {| user_id := None |} eq_refl eq_refl eq_refl).
Defined.

(** ** Turn submission: failures, chat creation, what is saved *)

Ltac concretize_ensure :=
  match goal with
  | H : ensure_events _ _ _ ?chat ?ensure |- _ =>
      destruct chat; simpl in H; [subst ensure | destruct H as [? ->]]
  end.

Ltac post_cases env models systemPrompt request s :=
  destruct (run_POST_cases env models systemPrompt request s);
  try concretize_ensure; unfold streaming_events; simpl.

Ltac pick_accepted :=
  match goal with
  | H : accepted _ _ _ _ _ _ _ |- _ => destruct H as (? & ? & ?)
  end.

(** X8: [POST] catches nothing.  When a call it awaits rejects (the
    session, the lookup, the title, [saveChat] or [saveMessages]), the
    run ends there with that very error: nothing was written to the
    stream and generation was not started. *)
Theorem POST_rejection_ends_run {St : Type} (env : Env St) (models : list Model)
    (systemPrompt : string) (request : TurnRequest) (s : St) (e : Event) (err : Exn) :
  In e (trace (run env (POST models systemPrompt request) s)) ->
  thrown e = Some err ->
  outcome (run env (POST models systemPrompt request) s) = Threw err /\
  last (trace (run env (POST models systemPrompt request) s)) = Some e /\
  quiet (trace (run env (POST models systemPrompt request) s)).
Proof.
  intros Hin Hthrown. revert Hin.
  post_cases env models systemPrompt request s; intros Hin;
    repeat (destruct Hin as [<-|Hin]; [simpl in Hthrown; try discriminate Hthrown|]);
    try destruct Hin.
  all: injection Hthrown as <-; repeat split; repeat constructor.
Qed.

Lemma POST_rejection_ends_run_witness :
  let w := sample_world (Some alice) empty_store save_fails in
  let e := EvAwait (saveMessages [user_row sample_user_message "chat-1" 1000])
                   (Threw (StoreError "store unavailable")) in
  let r := run world (POST sample_models "prompt" sample_request) w in
  In e (trace r) /\
  outcome r = Threw (StoreError "store unavailable") /\
  last (trace r) = Some e /\
  quiet (trace r).
Proof.
  intros w e r.
  assert (Hin : In e (trace r)) by (vm_compute; do 5 right; left; reflexivity).
  split; [exact Hin|].
  exact (POST_rejection_ends_run world sample_models "prompt" sample_request w e
           (StoreError "store unavailable") Hin eq_refl).
Defined.

(** The chat was created before the failing save of the message: the
    title and the chat row stay although the turn was rejected. *)
Example POST_failed_save_leaves_chat :
  let w := sample_world (Some alice) empty_store save_fails in
  let r := run world (POST sample_models "prompt" sample_request) w in
  chats (w_store (final r)) !! "chat-1"
    = Some {| chat_id := "chat-1"; chat_userId := "alice"; chat_title := "Wallet" |} /\
  messages (w_store (final r)) = [] /\ w_stream (final r) = [].
Proof. vm_compute. repeat split; reflexivity. Qed.

(** X9: [saveChat] is called only right after the lookup of the
    request's id returned no chat and the title helper returned; it is
    called for that id, for the caller's user id, with the title the
    helper returned for the most recent user message. *)
Theorem POST_creates_chat_only_when_absent {St : Type} (env : Env St)
    (models : list Model) (systemPrompt : string) (request : TurnRequest) (s : St)
    (pre post : list Event) (e : Event) :
  trace (run env (POST models systemPrompt request) s) = pre ++ e :: post ->
  is_saveChat e = true ->
  exists session sess userId userMessage title,
    session_user_id session = Some (sess, userId) /\
    getMostRecentUserMessage (req_messages request) = Some userMessage /\
    saved_chat e = Some (req_id request, userId, title) /\
    pre = [EvAwait auth (Ok session);
           EvAwait (getChatById (req_id request)) (Ok None);
           EvAwait (generateTitleFromUserMessage userMessage) (Ok title)].
Proof.
  intros Htrace He. revert Htrace.
  post_cases env models systemPrompt request s; intros Htrace;
    split_trace Htrace; simpl in He; try discriminate He.
  all: pick_accepted; do 5 eexists; repeat split; eauto.
Qed.

Lemma POST_creates_chat_only_when_absent_witness :
  let w := sample_world (Some alice) empty_store never_fails in
  let e := EvAwait (saveChat "chat-1" "alice" "Wallet") (Ok tt) in
  exists pre post,
    trace (run world (POST sample_models "prompt" sample_request) w) = pre ++ e :: post /\
    exists session sess userId userMessage title,
      session_user_id session = Some (sess, userId) /\
      getMostRecentUserMessage (req_messages sample_request) = Some userMessage /\
      saved_chat e = Some (req_id sample_request, userId, title) /\
      pre = [EvAwait auth (Ok session);
             EvAwait (getChatById (req_id sample_request)) (Ok None);
             EvAwait (generateTitleFromUserMessage userMessage) (Ok title)].
Proof.
  intros w e.
  set (pre := [EvAwait auth (Ok (Some alice));
               EvAwait (getChatById "chat-1") (Ok None);
               EvAwait (generateTitleFromUserMessage sample_user_message) (Ok "Wallet")]).
  set (cfg := streamTextConfig "prompt" sample_model [sample_user_message] alice "chat-1").
  set (post := streaming_events cfg sample_user_message "chat-1" 1000 "uuid-0"
                                {| result_handle := 0 |}).
  exists pre, post.
  assert (Htrace : trace (run world (POST sample_models "prompt" sample_request) w)
                   = pre ++ e :: post) by (vm_compute; reflexivity).
  split; [exact Htrace|].
  exact (POST_creates_chat_only_when_absent world sample_models "prompt"
           sample_request w pre post e Htrace eq_refl).
Defined.

(** X10: when the lookup finds a chat, the chat is left alone: neither
    the title helper nor [saveChat] is called in that run. *)
Theorem POST_existing_chat_not_recreated {St : Type} (env : Env St)
    (models : list Model) (systemPrompt : string) (request : TurnRequest) (s : St)
    (e : Event) (chat : Chat) :
  In e (trace (run env (POST models systemPrompt request) s)) ->
  lookup_result e = Some (Some chat) ->
  Forall (fun e' => is_saveChat e' = false /\ is_title e' = false)
         (trace (run env (POST models systemPrompt request) s)).
Proof.
  intros Hin Hfound. revert Hin.
  post_cases env models systemPrompt request s; intros Hin;
    try (repeat constructor; fail);
    repeat (destruct Hin as [<-|Hin]; [simpl in Hfound; try discriminate Hfound|]);
    try destruct Hin.
Qed.

Lemma POST_existing_chat_not_recreated_witness :
  let w := sample_world (Some alice) alice_store never_fails in
  let e := EvAwait (getChatById "chat-1") (Ok (Some alice_chat)) in
  In e (trace (run world (POST sample_models "prompt" sample_request) w)) /\
  Forall (fun e' => is_saveChat e' = false /\ is_title e' = false)
         (trace (run world (POST sample_models "prompt" sample_request) w)).
Proof.
  intros w e.
  assert (Hin : In e (trace (run world (POST sample_models "prompt" sample_request) w)))
    by (vm_compute; right; left; reflexivity).
  split; [exact Hin|].
  exact (POST_existing_chat_not_recreated world sample_models "prompt" sample_request
           w e alice_chat Hin eq_refl).
Defined.

(** X11: [POST] does not compare the owner of an existing chat with the
    caller.  Whenever the lookup finds a chat, whoever owns it, and no
    call rejects, the user message is saved under that chat's id and the
    streamed response is returned. *)
Theorem POST_accepts_any_owner {St : Type} (env : Env St) (models : list Model)
    (systemPrompt : string) (request : TurnRequest) (s : St) (e : Event) (chat : Chat) :
  In e (trace (run env (POST models systemPrompt request) s)) ->
  lookup_result e = Some (Some chat) ->
  Forall (fun e' => rejected e' = false)
         (trace (run env (POST models systemPrompt request) s)) ->
  outcome (run env (POST models systemPrompt request) s)
    = Ok {| body := BodyDataStream; status := 200 |} /\
  exists userMessage createdAt,
    getMostRecentUserMessage (req_messages request) = Some userMessage /\
    In (EvAwait (saveMessages [user_row userMessage (req_id request) createdAt]) (Ok tt))
       (trace (run env (POST models systemPrompt request) s)).
Proof.
  intros Hin Hfound Hok. revert Hin Hok.
  post_cases env models systemPrompt request s; intros Hin Hok;
    try (repeat (destruct Hin as [<-|Hin];
                 [simpl in Hfound; try discriminate Hfound|]);
         try destruct Hin; fail).
  - exfalso. rewrite List.Forall_forall in Hok.
    assert (Hrej : rejected
                     (EvAwait (saveMessages
                                 [user_row userMessage (req_id request) createdAt])
                              (Threw e0)) = false).
    { apply Hok. simpl. auto. }
    discriminate Hrej.
  - pick_accepted. split; [reflexivity|].
    exists userMessage, createdAt. split; [assumption|]. simpl. auto.
Qed.

Lemma POST_accepts_any_owner_witness :
  let w := sample_world (Some bob) alice_store never_fails in
  let r := run world (POST sample_models "prompt" sample_request) w in
  let e := EvAwait (getChatById "chat-1") (Ok (Some alice_chat)) in
  (In e (trace r) /\ chat_userId alice_chat = "alice" /\
   session_user_id (w_session w) = Some (bob, "bob")) /\
  outcome r = Ok {| body := BodyDataStream; status := 200 |} /\
  exists userMessage createdAt,
    getMostRecentUserMessage (req_messages sample_request) = Some userMessage /\
    In (EvAwait (saveMessages [user_row userMessage (req_id sample_request) createdAt])
                (Ok tt))
       (trace r).
Proof.
  intros w r e.
  assert (Hin : In e (trace r)) by (vm_compute; right; left; reflexivity).
  split; [repeat split; [exact Hin]|].
  apply (POST_accepts_any_owner world sample_models "prompt" sample_request w e
           alice_chat Hin eq_refl).
  vm_compute. repeat constructor.
Defined.

(** X12: the only rows [POST] hands to [saveMessages] are the single row
    of the most recent user message: it keeps the id, role and content
    the client sent, is filed under the request's id and is stamped with
    a [new Date()] read in the same run.  No other message of the history
    is saved. *)
Theorem POST_saves_only_triggering_message {St : Type} (env : Env St)
    (models : list Model) (systemPrompt : string) (request : TurnRequest) (s : St)
    (e : Event) :
  In e (trace (run env (POST models systemPrompt request) s)) ->
  is_saveMessages e = true ->
  exists userMessage createdAt,
    getMostRecentUserMessage (req_messages request) = Some userMessage /\
    saved_rows e = Some [user_row userMessage (req_id request) createdAt] /\
    In (EvDo newDate createdAt) (trace (run env (POST models systemPrompt request) s)).
Proof.
  intros Hin He. revert Hin.
  post_cases env models systemPrompt request s; intros Hin;
    repeat (destruct Hin as [<-|Hin]; [simpl in He; try discriminate He|]);
    try destruct Hin.
  all: pick_accepted; exists userMessage, createdAt;
    split; [assumption|]; split; [reflexivity|]; simpl; auto 10.
Qed.

Lemma POST_saves_only_triggering_message_witness :
  let history :=
    [ {| msg_id := "u0"; msg_role := user; msg_content := Text "hello" |};
      {| msg_id := "a0"; msg_role := assistant; msg_content := Text "hi" |};
      sample_user_message ] in
  let request := {| req_id := "chat-1"; req_messages := history;
                    req_modelId := "gpt-4o" |} in
  let w := sample_world (Some alice) alice_store never_fails in
  let e := EvAwait (saveMessages [user_row sample_user_message "chat-1" 1000]) (Ok tt) in
  In e (trace (run world (POST sample_models "prompt" request) w)) /\
  exists userMessage createdAt,
    getMostRecentUserMessage (req_messages request) = Some userMessage /\
    saved_rows e = Some [user_row userMessage (req_id request) createdAt] /\
    In (EvDo newDate createdAt) (trace (run world (POST sample_models "prompt" request) w)).
Proof.
  intros history request w e.
  assert (Hin : In e (trace (run world (POST sample_models "prompt" request) w)))
    by (vm_compute; do 3 right; left; reflexivity).
  split; [exact Hin|].
  exact (POST_saves_only_triggering_message world sample_models "prompt" request w e
           Hin eq_refl).
Defined.

(** X13: generation is only ever started behind the streamed answer:
    whenever [streamText] has been called in a run, the run resolves with
    the streamed 200 response, never with a plain answer or a rejection. *)
Theorem POST_generation_only_behind_stream {St : Type} (env : Env St)
    (models : list Model) (systemPrompt : string) (request : TurnRequest) (s : St)
    (e : Event) :
  In e (trace (run env (POST models systemPrompt request) s)) ->
  is_generation e = true ->
  outcome (run env (POST models systemPrompt request) s)
    = Ok {| body := BodyDataStream; status := 200 |}.
Proof.
  intros Hin Hgen. revert Hin.
  post_cases env models systemPrompt request s; intros Hin;
    try reflexivity;
    repeat (destruct Hin as [<-|Hin]; [simpl in Hgen; try discriminate Hgen|]);
    try destruct Hin.
Qed.

Lemma POST_generation_only_behind_stream_witness :
  let w := sample_world (Some alice) empty_store never_fails in
  let cfg := streamTextConfig "prompt" sample_model [sample_user_message] alice "chat-1" in
  let e := EvDo (streamText cfg) {| result_handle := 0 |} in
  In e (trace (run world (POST sample_models "prompt" sample_request) w)) /\
  outcome (run world (POST sample_models "prompt" sample_request) w)
    = Ok {| body := BodyDataStream; status := 200 |}.
Proof.
  intros w cfg e.
  assert (Hin : In e (trace (run world (POST sample_models "prompt" sample_request) w)))
    by (vm_compute; do 8 right; left; reflexivity).
  split; [exact Hin|].
  exact (POST_generation_only_behind_stream world sample_models "prompt"
           sample_request w e Hin eq_refl).
Defined.

Lemma session_user_id_truthy (session : option Session) (sess : Session)
    (userId : string) :
  session_user_id session = Some (sess, userId) ->
  truthy (session_user sess ≫= user_id) = Some userId.
Proof.
  unfold session_user_id. destruct session as [s0|]; [|discriminate].
  destruct (session_user s0) as [u|] eqn:Hu; [|discriminate].
  destruct (truthy (user_id u)) as [uid|] eqn:Hid; [|discriminate].
  intros [= <- <-]. rewrite Hu. simpl. exact Hid.
Qed.

(** X14: every [streamText] call of [POST] gets the whole history the
    client sent, unchanged, and the system prompt; its model is the
    [apiIdentifier] of an entry of [models] whose id is the requested
    one; both declared tools are active, each once; and the callback it
    carries has captured the request's id and a session with a user id. *)
Theorem POST_engine_config {St : Type} (env : Env St) (models : list Model)
    (systemPrompt : string) (request : TurnRequest) (s : St)
    (e : Event) (cfg : StreamTextConfig) :
  In e (trace (run env (POST models systemPrompt request) s)) ->
  started_cfg e = Some cfg ->
  cfg_messages cfg = req_messages request /\
  cfg_system cfg = systemPrompt /\
  (exists model, In model models /\ model_id model = req_modelId request /\
                 cfg_model cfg = model_apiIdentifier model) /\
  (forall t : AllowedTools, In t (cfg_activeTools cfg)) /\
  List.NoDup (cfg_activeTools cfg) /\
  captured_id (cfg_onFinish cfg) = req_id request /\
  exists userId,
    truthy (session_user (captured_session (cfg_onFinish cfg)) ≫= user_id) = Some userId.
Proof.
  intros Hin Hcfg. revert Hin.
  post_cases env models systemPrompt request s; intros Hin;
    repeat (destruct Hin as [<-|Hin]; [simpl in Hcfg; try discriminate Hcfg|]);
    try destruct Hin.
  all: injection Hcfg as <-; pick_accepted; simpl.
  all: match goal with
       | Hf : List.find _ _ = Some _ |- _ =>
           destruct (List.find_some _ _ Hf) as [Hmem Heqb];
           apply String.eqb_eq in Heqb
       end.
  all: match goal with
       | Hs : session_user_id _ = Some _ |- _ =>
           pose proof (session_user_id_truthy _ _ _ Hs) as Hid
       end.
  all: split; [reflexivity|]; split; [reflexivity|].
  all: split; [exists model; auto|].
  all: split; [intros []; simpl; auto|].
  all: split;
    [repeat (apply List.NoDup_cons; [simpl; intuition discriminate|]);
     apply List.NoDup_nil|].
  all: split; [reflexivity|]; eexists; exact Hid.
Qed.

Lemma POST_engine_config_witness :
  let w := sample_world (Some alice) empty_store never_fails in
  let cfg := streamTextConfig "prompt" sample_model [sample_user_message] alice "chat-1" in
  let e := EvDo (streamText cfg) {| result_handle := 0 |} in
  In e (trace (run world (POST sample_models "prompt" sample_request) w)) /\
  cfg_messages cfg = req_messages sample_request /\
  cfg_system cfg = "prompt" /\
  (exists model, In model sample_models /\ model_id model = req_modelId sample_request /\
                 cfg_model cfg = model_apiIdentifier model) /\
  (forall t : AllowedTools, In t (cfg_activeTools cfg)) /\
  List.NoDup (cfg_activeTools cfg) /\
  captured_id (cfg_onFinish cfg) = req_id sample_request /\
  exists userId,
    truthy (session_user (captured_session (cfg_onFinish cfg)) ≫= user_id) = Some userId.
Proof.
  intros w cfg e.
  assert (Hin : In e (trace (run world (POST sample_models "prompt" sample_request) w)))
    by (vm_compute; do 8 right; left; reflexivity).
  split; [exact Hin|].
  exact (POST_engine_config world sample_models "prompt" sample_request w e cfg
           Hin eq_refl).
Defined.

(** ** The write-back, row by row *)

Section WriteBack.
Context {St : Type} (env : Env St).

(** The rows of the [map] callback, with their timestamps. *)
Lemma run_response_rows_exact (id : string) (ms : list Message) (s : St) :
  exists rows dates s',
    run env (mapM (fun message =>
                     Do newDate (fun createdAt =>
                       Ret {| db_id := msg_id message; db_chatId := id;
                              db_role := msg_role message;
                              db_content := msg_content message;
                              db_createdAt := createdAt |})) ms) s
      = {| outcome := Ok rows; trace := dates; final := s' |} /\
    Forall2 (fun m row => row = response_row id m (db_createdAt row)) ms rows /\
    omap date_of dates = map db_createdAt rows /\
    Forall (fun e => is_newDate e = true) dates /\
    length dates = length ms.
Proof.
  set (f := fun message : Message =>
              Do newDate (fun createdAt =>
                Ret {| db_id := msg_id message; db_chatId := id;
                       db_role := msg_role message;
                       db_content := msg_content message;
                       db_createdAt := createdAt |})).
  revert s. induction ms as [|m rest IH]; intros s.
  - exists [], [], s. repeat split; constructor.
  - change (mapM f (m :: rest))
      with (bind (f m) (fun y => bind (mapM f rest) (fun ys => Ret (y :: ys)))).
    rewrite run_bind.
    replace (run env (f m) s)
      with (let '(t, s1) := on_eff env newDate s in
            {| outcome := Ok (response_row id m t);
               trace := [EvDo newDate t]; final := s1 |})
      by (unfold f; simpl; destruct (on_eff env newDate s); reflexivity).
    destruct (on_eff env newDate s) as [t s1]. cbv zeta iota beta.
    cbn [outcome trace final].
    destruct (IH s1) as (rows & dates & s' & Hrun & Hrows & Htimes & Hdates & Hlen).
    rewrite run_bind, Hrun. simpl. rewrite app_nil_r.
    exists (response_row id m t :: rows), (EvDo newDate t :: dates), s'.
    split; [reflexivity|]. split; [constructor; [reflexivity|exact Hrows]|].
    split; [simpl; fold_omap; rewrite Htimes; reflexivity|].
    split; [constructor; [reflexivity|exact Hdates]|].
    simpl. rewrite Hlen. reflexivity.
Qed.

(** The run of the callback once its guard has passed. *)
Lemma run_onFinish_guarded (clo : OnFinishClosure) (response : EngineResponse)
    (s : St) (userId : string) :
  truthy (session_user (captured_session clo) ≫= user_id) = Some userId ->
  exists dates rows o,
    trace (run env (onFinish clo response) s) =
      dates ++ EvAwait (saveMessages rows) o ::
      match o with
      | Ok _ => []
      | Threw _ => [EvDo (consoleError "Failed to save chat") tt]
      end /\
    Forall2 (fun m row => row = response_row (captured_id clo) m (db_createdAt row))
            (sanitizeResponseMessages (response_messages response)) rows /\
    omap date_of dates = map db_createdAt rows /\
    Forall (fun e => is_newDate e = true) dates.
Proof.
  intros Hguard. unfold onFinish. rewrite Hguard.
  unfold_prog. rewrite run_try_catch, run_bind.
  destruct (run_response_rows_exact (captured_id clo)
              (sanitizeResponseMessages (response_messages response)) s)
    as (rows & dates & s' & Hrun & Hrows & Htimes & Hdates & _).
  simpl in *. rewrite Hrun. simpl.
  destruct (on_call env (saveMessages rows) s') as [[[]|e] s2]; simpl.
  - exists dates, rows, (Ok tt). auto.
  - destruct (on_eff env (consoleError "Failed to save chat") s2) as [[] s3]; simpl.
    exists dates, rows, (Threw e). rewrite <- app_assoc. auto.
Qed.

End WriteBack.

Lemma newDate_not_saveMessages (dates : list Event) :
  Forall (fun e => is_newDate e = true) dates ->
  Forall (fun e => is_saveMessages e = false) dates.
Proof.
  induction 1 as [|e dates He _ IH]; constructor; [|exact IH].
  destruct e as [c o|a r]; [discriminate|reflexivity].
Qed.

(** X15: once the guard on the captured session passes, [onFinish] calls
    [saveMessages] exactly once, also for an empty list.  The rows are
    the sanitized response messages in their order, each with its id,
    role and content unchanged and filed under the captured chat id;
    each row is stamped with its own [new Date()], and all of them are
    read, in message order, before the call. *)
Theorem onFinish_rows_follow_messages {St : Type} (env : Env St)
    (clo : OnFinishClosure) (response : EngineResponse) (s : St) (userId : string) :
  truthy (session_user (captured_session clo) ≫= user_id) = Some userId ->
  exists dates rows o tail,
    trace (run env (onFinish clo response) s)
      = dates ++ EvAwait (saveMessages rows) o :: tail /\
    Forall (fun e => is_saveMessages e = false) dates /\
    Forall (fun e => is_saveMessages e = false) tail /\
    Forall2 (fun m row =>
               db_id row = msg_id m /\ db_role row = msg_role m /\
               db_content row = msg_content m /\ db_chatId row = captured_id clo)
            (sanitizeResponseMessages (response_messages response)) rows /\
    omap date_of dates = map db_createdAt rows /\
    length dates = length rows.
Proof.
  intros Hguard.
  destruct (run_onFinish_guarded env clo response s userId Hguard)
    as (dates & rows & o & Htrace & Hrows & Htimes & Hdates).
  exists dates, rows, o. eexists. split; [exact Htrace|].
  split; [apply newDate_not_saveMessages; exact Hdates|].
  split; [destruct o; repeat constructor|].
  split.
  - clear -Hrows. induction Hrows as [|m row ms rows Hrow _ IH]; constructor;
      [|exact IH].
    rewrite Hrow. simpl. auto.
  - split; [exact Htimes|].
    rewrite <- (length_map db_createdAt rows), <- Htimes.
    clear -Hdates. induction Hdates as [|e dates He _ IH]; [reflexivity|].
    destruct e as [c o|[] r]; try discriminate He. simpl. fold_omap.
    simpl. rewrite IH. reflexivity.
Qed.

Lemma onFinish_rows_follow_messages_witness :
  let clo := {| captured_session := alice; captured_id := "chat-1" |} in
  let w := sample_world (Some alice) alice_store never_fails in
  exists dates rows o tail,
    trace (run world (onFinish clo sample_response) w)
      = dates ++ EvAwait (saveMessages rows) o :: tail /\
    Forall (fun e => is_saveMessages e = false) dates /\
    Forall (fun e => is_saveMessages e = false) tail /\
    Forall2 (fun m row =>
               db_id row = msg_id m /\ db_role row = msg_role m /\
               db_content row = msg_content m /\ db_chatId row = captured_id clo)
            (sanitizeResponseMessages (response_messages sample_response)) rows /\
    omap date_of dates = map db_createdAt rows /\
    length dates = length rows.
Proof.
  intros clo w.
  exact (onFinish_rows_follow_messages world clo sample_response w "alice" eq_refl).
Defined.

(** An empty response is still written back: [saveMessages] is called
    with no row. *)
Example onFinish_empty_response :
  trace (run world
           (onFinish {| captured_session := alice; captured_id := "chat-1" |}
                     {| response_messages := [] |})
           (sample_world (Some alice) alice_store never_fails))
  = [EvAwait (saveMessages []) (Ok tt)].
Proof. reflexivity. Qed.

(** X16: [onFinish] logs only after a rejected write-back, and what it
    logs is the fixed text, never the error it caught. *)
Theorem onFinish_logs_only_failed_save {St : Type} (env : Env St)
    (clo : OnFinishClosure) (response : EngineResponse) (s : St) (e : Event) :
  In e (trace (run env (onFinish clo response) s)) ->
  is_consoleError e = true ->
  logged_error e = Some "Failed to save chat" /\
  exists e', In e' (trace (run env (onFinish clo response) s)) /\
             is_saveMessages e' = true /\ rejected e' = true.
Proof.
  intros Hin He.
  destruct (run_onFinish_shape env clo response s)
    as [_ [Hnil | (dates & rows & o & Hdates & _ & _ & Htrace)]].
  { rewrite Hnil in Hin. destruct Hin. }
  rewrite Htrace in *. apply in_app_or in Hin as [Hin | [<- | Hin]].
  - exfalso. rewrite List.Forall_forall in Hdates. specialize (Hdates _ Hin).
    destruct e as [c o'|[] r]; discriminate.
  - discriminate He.
  - destruct o as [x|err]; simpl in Hin; [destruct Hin|].
    destruct Hin as [<-|[]]. split; [reflexivity|].
    exists (EvAwait (saveMessages rows) (Threw err)).
    split; [apply in_or_app; right; left; reflexivity|]. split; reflexivity.
Qed.

Lemma onFinish_logs_only_failed_save_witness :
  let clo := {| captured_session := alice; captured_id := "chat-1" |} in
  let w := sample_world (Some alice) alice_store save_fails in
  let e := EvDo (consoleError "Failed to save chat") tt in
  In e (trace (run world (onFinish clo sample_response) w)) /\
  logged_error e = Some "Failed to save chat" /\
  exists e', In e' (trace (run world (onFinish clo sample_response) w)) /\
             is_saveMessages e' = true /\ rejected e' = true.
Proof.
  intros clo w e.
  assert (Hin : In e (trace (run world (onFinish clo sample_response) w)))
    by (vm_compute; do 3 right; left; reflexivity).
  split; [exact Hin|].
  exact (onFinish_logs_only_failed_save world clo sample_response w e Hin eq_refl).
Defined.

(** X17: the callback of every generation [POST] starts passes its own
    guard: whenever the engine calls it, with whatever response, it calls
    [saveMessages] exactly once, and every row is filed under the id of
    the request. *)
Theorem POST_write_back_always_attempted {St St' : Type} (env : Env St) (env' : Env St')
    (models : list Model) (systemPrompt : string) (request : TurnRequest) (s : St)
    (e : Event) (cfg : StreamTextConfig) (response : EngineResponse) (s' : St') :
  In e (trace (run env (POST models systemPrompt request) s)) ->
  started_cfg e = Some cfg ->
  exists dates rows o tail,
    trace (run env' (onFinish (cfg_onFinish cfg) response) s')
      = dates ++ EvAwait (saveMessages rows) o :: tail /\
    Forall (fun e' => is_saveMessages e' = false) dates /\
    Forall (fun e' => is_saveMessages e' = false) tail /\
    Forall (fun row => db_chatId row = req_id request) rows.
Proof.
  intros Hin Hcfg.
  assert (Hclo : captured_id (cfg_onFinish cfg) = req_id request /\
                 exists userId,
                   truthy (session_user (captured_session (cfg_onFinish cfg)) ≫= user_id)
                   = Some userId).
  { revert Hin.
    post_cases env models systemPrompt request s; intros Hin;
      repeat (destruct Hin as [<-|Hin]; [simpl in Hcfg; try discriminate Hcfg|]);
      try destruct Hin.
    all: injection Hcfg as <-; pick_accepted; simpl.
    all: split; [reflexivity|]; eexists; eapply session_user_id_truthy; eassumption. }
  destruct Hclo as [Hid [userId Hguard]].
  destruct (run_onFinish_guarded env' (cfg_onFinish cfg) response s' userId Hguard)
    as (dates & rows & o & Htrace & Hrows & _ & Hdates).
  exists dates, rows, o. eexists. split; [exact Htrace|].
  split; [apply newDate_not_saveMessages; exact Hdates|].
  split; [destruct o; repeat constructor|].
  rewrite <- Hid. clear -Hrows.
  induction Hrows as [|m row ms rows Hrow _ IH]; constructor; [|exact IH].
  rewrite Hrow. reflexivity.
Qed.

Lemma POST_write_back_always_attempted_witness :
  let w := sample_world (Some alice) empty_store never_fails in
  let cfg := streamTextConfig "prompt" sample_model [sample_user_message] alice "chat-1" in
  let e := EvDo (streamText cfg) {| result_handle := 0 |} in
  In e (trace (run world (POST sample_models "prompt" sample_request) w)) /\
  exists dates rows o tail,
    trace (run world (onFinish (cfg_onFinish cfg) sample_response) w)
      = dates ++ EvAwait (saveMessages rows) o :: tail /\
    Forall (fun e' => is_saveMessages e' = false) dates /\
    Forall (fun e' => is_saveMessages e' = false) tail /\
    Forall (fun row => db_chatId row = req_id sample_request) rows.
Proof.
  intros w cfg e.
  assert (Hin : In e (trace (run world (POST sample_models "prompt" sample_request) w)))
    by (vm_compute; do 8 right; left; reflexivity).
  split; [exact Hin|].
  exact (POST_write_back_always_attempted world world sample_models "prompt"
           sample_request w e cfg sample_response w Hin eq_refl).
Defined.

(** ** Who is authenticated, and how often collaborators are called *)

Lemma session_user_id_none_iff (session : option Session) :
  session_user_id session = None <-> lacks_user_id session.
Proof.
  unfold session_user_id, lacks_user_id, truthy.
  destruct session as [sess|]; [|split; auto].
  destruct (session_user sess) as [u|] eqn:Hu.
  - destruct (user_id u) as [uid|] eqn:Hid.
    + destruct (String.eqb_spec uid "") as [->|Hne]; split.
      * intros _. right. exists sess. split; [reflexivity|]. right.
        exists u. auto.
      * reflexivity.
      * discriminate.
      * intros [H|(sess' & [= <-] & [H|(u' & Hu' & [H|H])])]; try discriminate;
          rewrite Hu in *; try discriminate;
          injection Hu' as <-; rewrite Hid in H; try discriminate.
        injection H as ->. contradiction.
    + split; [|reflexivity]. intros _. right. exists sess. split; [reflexivity|].
      right. exists u. auto.
  - split; [|reflexivity]. intros _. right. exists sess. auto.
Qed.

(** X18: [POST] answers 401 exactly when the resolved session is null,
    has no user, or its user's id is undefined or the empty string. *)
Theorem POST_401_iff_no_user_id {St : Type} (env : Env St) (models : list Model)
    (systemPrompt : string) (request : TurnRequest) (s : St)
    (e : Event) (session : option Session) :
  In e (trace (run env (POST models systemPrompt request) s)) ->
  resolved_session e = Some session ->
  outcome (run env (POST models systemPrompt request) s)
    = Ok (text_response "Unauthorized" 401)
  <-> lacks_user_id session.
Proof.
  intros Hin Hsession. rewrite <- session_user_id_none_iff. revert Hin.
  post_cases env models systemPrompt request s; intros Hin;
    try pick_accepted;
    repeat (destruct Hin as [<-|Hin];
            [simpl in Hsession; try discriminate Hsession|]);
    try destruct Hin.
  all: injection Hsession as <-.
  all: split; [intros Hout; try discriminate Hout; assumption
              |intros Hnone; try reflexivity; congruence].
Qed.

Lemma POST_401_iff_no_user_id_witness :
  let w := sample_world (Some blank) empty_store never_fails in
  let e := EvAwait auth (Ok (Some blank)) in
  In e (trace (run world (POST sample_models "prompt" sample_request) w)) /\
  lacks_user_id (Some blank) /\
  outcome (run world (POST sample_models "prompt" sample_request) w)
    = Ok (text_response "Unauthorized" 401).
Proof.
  intros w e.
  assert (Hin : In e (trace (run world (POST sample_models "prompt" sample_request) w)))
    by (vm_compute; left; reflexivity).
  assert (Hlacks : lacks_user_id (Some blank)).
  { right. exists blank. split; [reflexivity|]. right.
    exists {| user_id := Some "" |}. auto. }
  split; [exact Hin|]. split; [exact Hlacks|].
  exact (proj2 (POST_401_iff_no_user_id world sample_models "prompt" sample_request
                  w e (Some blank) Hin eq_refl) Hlacks).
Defined.

(** X19: [POST] retries nothing: in one run the session resolution, the
    lookup, the title helper, [saveChat], [saveMessages] and
    [streamText] are each called at most once. *)
Theorem POST_calls_at_most_once {St : Type} (env : Env St) (models : list Model)
    (systemPrompt : string) (request : TurnRequest) (s : St) :
  let t := trace (run env (POST models systemPrompt request) s) in
  (count_calls is_auth t <= 1)%nat /\
  (count_calls is_lookup t <= 1)%nat /\
  (count_calls is_title t <= 1)%nat /\
  (count_calls is_saveChat t <= 1)%nat /\
  (count_calls is_saveMessages t <= 1)%nat /\
  (count_calls is_generation t <= 1)%nat.
Proof.
  post_cases env models systemPrompt request s; unfold count_calls; simpl;
    repeat split; lia.
Qed.

(** X20: [DELETE] retries nothing either: the session is resolved at
    most once, and the lookup and [deleteChatById] are each called at
    most once; it never writes a chat or a message. *)
Theorem DELETE_calls_at_most_once {St : Type} (env : Env St)
    (request : DeleteRequest) (s : St) :
  let t := trace (run env (DELETE request) s) in
  (count_calls is_auth t <= 1)%nat /\
  (count_calls is_lookup t <= 1)%nat /\
  (count_calls is_delete t <= 1)%nat /\
  count_calls is_saveChat t = 0%nat /\
  count_calls is_saveMessages t = 0%nat.
Proof.
  destruct (run_DELETE_cases env request s); unfold count_calls; simpl;
    repeat split; lia.
Qed.

(** ** The announced identifier and the write-back *)





(** With the reference generator the sample turn keeps the two apart:
    [uuid-0] is announced, [msg-0] and [msg-1] are persisted. *)
Example sample_turn_ids :
  let t := turn sample_models "prompt" sample_request
                (sample_world (Some alice) empty_store never_fails) in
  head (w_stream (final t.1)) = Some (metadata "user-message-id" "uuid-0") /\
  option_map (fun r => map db_id (messages (w_store (final r)))) t.2
    = Some ["u1"; "msg-0"; "msg-1"].
Proof. vm_compute. split; reflexivity. Qed.
